(** * AvitoParsing: the listing extractor, the paginator and the price analyzer

    A shallow embedding of [src/parser.py] (class [AvitoParser]) and
    [src/analyzer.py] (class [AvitoAnalyzer]), with the loop of
    [src/main.py] that normalises the records between the two.

    Conventions of the model.
    - A Python [str] holding page text is a list of Unicode code points
      ([pystr]).  Identifiers written in the program text (dictionary keys,
      attribute names, CSS selectors) are Rocq strings.
    - A Python [dict] with string keys is a finite map [gmap string pyval].
    - A Python number is an exact rational: the rounding and the range of
      binary64 are not modelled.  [np.std] returns a square root, which is
      kept exact as [PRoot v], standing for the square root of [v].
    - An exception is a value of [exn]; code that may raise returns a
      [result].  Only subclasses of [Exception] are modelled. *)

From Stdlib Require Import Reals Qreals Lra.
From Stdlib Require Import QArith Qpower Lqa ZArith NArith Ascii String Lia List Sorted.
From stdpp Require Import gmap strings list pretty.

(** ** Text and values *)

Definition pystr : Type := list N.

(** An ASCII literal of the program as page text. *)
Fixpoint py (s : string) : pystr :=
  match s with
  | EmptyString => []
  | String a s' => N_of_ascii a :: py s'
  end.

Inductive pyval : Type :=
| PStr (s : pystr)
| PNum (q : Q)
| PRoot (radicand : Q)
| PBool (b : bool)
| PInf (negative : bool)
| PNaN.

Inductive exn_class : Type :=
| ValueError | TypeError | KeyError | IndexError | AttributeError
| ZeroDivisionError | RuntimeError.

Inductive exn : Type :=
| Exn (cls : exn_class) (msg : pystr).

Inductive result (A : Type) : Type :=
| Ok (a : A)
| Raise (e : exn).
Arguments Ok {A} a.
Arguments Raise {A} e.

#[global] Instance result_ret : MRet result := fun A a => Ok a.

#[global] Instance result_bind : MBind result := fun A B k m =>
  match m with
  | Ok a => k a
  | Raise e => Raise e
  end.

(** [try: m except Exception as e: h e] *)
Definition try_except {A : Type} (m : result A) (h : exn -> result A) : result A :=
  match m with
  | Ok a => Ok a
  | Raise e => h e
  end.

Abbreviation pydict := (gmap string pyval).

(** A dictionary display [{k1: v1, ..., kn: vn}]. *)
Definition dict (items : list (string * pyval)) : gmap string pyval :=
  list_to_map items.

(** [d[k]] read as a number. *)
Definition num_item (d : gmap string pyval) (k : string) : result Q :=
  match d !! k with
  | Some (PNum q) => Ok q
  | Some _ => Raise (Exn TypeError (py k))
  | None => Raise (Exn KeyError (py k))
  end.

(** [not l] on a list or a string *)
Definition is_empty {A : Type} (l : list A) : bool :=
  match l with [] => true | _ => false end.

Definition Qltb (x y : Q) : bool := negb (Qle_bool y x).

(** [a / b] on numbers. *)
Definition py_div (a b : Q) : result Q :=
  if Qeq_bool b 0 then Raise (Exn ZeroDivisionError (py "division by zero"))
  else Ok (a / b)%Q.

(** ** The analyzer *)

Module AvitoAnalyzer.

(** A listing record as the analyzer reads it; [lst_price r] is
    [r.get('price', 0)]. *)
Record listing : Type := Listing {
  lst_id : pystr;
  lst_title : pystr;
  lst_url : pystr;
  lst_price : Q;
  lst_date : pystr;
  lst_location : pystr
}.

Definition Qsum (xs : list Q) : Q := fold_right Qplus 0%Q xs.

Definition len (xs : list Q) : Q := inject_Z (Z.of_nat (length xs)).

(** [np.mean] and pandas' [Series.mean] *)
Definition mean (xs : list Q) : Q := (Qsum xs / len xs)%Q.

Definition sq_dev (m : Q) (xs : list Q) : list Q :=
  map (fun x => ((x - m) * (x - m))%Q) xs.

(** The radicand of [np.std]: the population variance (ddof = 0). *)
Definition np_var (xs : list Q) : Q := mean (sq_dev (mean xs) xs).

(** The radicand of pandas' [Series.std]: the sample variance (ddof = 1);
    [None] stands for the NaN returned on fewer than two values. *)
Definition pd_var (xs : list Q) : option Q :=
  match xs with
  | [] | [_] => None
  | _ => Some (Qsum (sq_dev (mean xs) xs) / (len xs - 1))%Q
  end.

Fixpoint insert_sorted (x : Q) (xs : list Q) : list Q :=
  match xs with
  | [] => [x]
  | y :: ys => if Qle_bool x y then x :: xs else y :: insert_sorted x ys
  end.

Definition sorted (xs : list Q) : list Q := fold_right insert_sorted [] xs.

(** [np.median] *)
Definition median (xs : list Q) : Q :=
  let s := sorted xs in
  let n := length s in
  if Nat.even n
  then ((nth (n / 2 - 1) s 0%Q + nth (n / 2) s 0%Q) / 2)%Q
  else nth (n / 2) s 0%Q.

(** The builtins [min] and [max] on a non-empty list. *)
Definition py_min (x : Q) (xs : list Q) : Q :=
  fold_left (fun m y => if Qltb y m then y else m) xs x.

Definition py_max (x : Q) (xs : list Q) : Q :=
  fold_left (fun m y => if Qltb m y then y else m) xs x.

Definition of_nat (n : nat) : Q := inject_Z (Z.of_nat n).

Definition get_price_statistics (data : list listing) : gmap string pyval :=
  match data with
  | [] =>
      dict [("count", PNum 0); ("avg_price", PNum 0); ("median_price", PNum 0);
            ("min_price", PNum 0); ("max_price", PNum 0); ("std_price", PNum 0)]
  | _ =>
      let prices := map lst_price data in
      let non_zero_prices := List.filter (fun p => Qltb 0 p) prices in
      match non_zero_prices with
      | [] =>
          dict [("count", PNum (of_nat (length data))); ("avg_price", PNum 0);
                ("median_price", PNum 0); ("min_price", PNum 0);
                ("max_price", PNum 0); ("std_price", PNum 0);
                ("zero_prices_count", PNum (of_nat (length data)))]
      | p :: ps =>
          let count := length data in
          let avg_price := mean non_zero_prices in
          let median_price := median non_zero_prices in
          let min_price := py_min p ps in
          let max_price := py_max p ps in
          let std_price := PRoot (np_var non_zero_prices) in
          let zero_prices_count := (length prices - length non_zero_prices)%nat in
          dict [("count", PNum (of_nat count)); ("avg_price", PNum avg_price);
                ("median_price", PNum median_price); ("min_price", PNum min_price);
                ("max_price", PNum max_price); ("std_price", std_price);
                ("zero_prices_count", PNum (of_nat zero_prices_count))]
      end
  end.

(** [abs((p - mean) / std) > t] where [std] is the square root of [var],
    [var] positive: decided on the squares. *)
Definition abs_z_gt (p mean_price var t : Q) : bool :=
  if Qltb t 0 then true
  else Qltb (t * t * var) ((p - mean_price) * (p - mean_price)).

Definition find_outliers (data : list listing) (z_threshold : Q) : list listing :=
  match data with
  | [] => []
  | _ =>
      let df_non_zero := List.filter (fun r => Qltb 0 (lst_price r)) data in
      match df_non_zero with
      | [] => []
      | _ =>
          let mean_price := mean (map lst_price df_non_zero) in
          match pd_var (map lst_price df_non_zero) with
          | None => []
          | Some var_price =>
              if Qeq_bool var_price 0 then []
              else List.filter
                     (fun r => abs_z_gt (lst_price r) mean_price var_price z_threshold)
                     df_non_zero
          end
      end
  end.

Definition change_percent (change previous : Q) : result Q :=
  if Qltb 0 previous
  then q ← py_div change previous; Ok (q * 100)%Q
  else Ok 0%Q.

Definition compare_with_previous (current_data previous_data : list listing)
  : result (gmap string pyval) :=
  if is_empty current_data || is_empty previous_data
  then Ok (dict [("comparison_available", PBool false)])
  else
    let current_stats := get_price_statistics current_data in
    let previous_stats := get_price_statistics previous_data in
    cur_avg ← num_item current_stats "avg_price";
    prev_avg ← num_item previous_stats "avg_price";
    let avg_price_change := (cur_avg - prev_avg)%Q in
    avg_price_change_percent ← change_percent avg_price_change prev_avg;
    cur_median ← num_item current_stats "median_price";
    prev_median ← num_item previous_stats "median_price";
    let median_price_change := (cur_median - prev_median)%Q in
    median_price_change_percent ← change_percent median_price_change prev_median;
    cur_count ← num_item current_stats "count";
    prev_count ← num_item previous_stats "count";
    cur_max ← num_item current_stats "max_price";
    prev_max ← num_item previous_stats "max_price";
    cur_min ← num_item current_stats "min_price";
    prev_min ← num_item previous_stats "min_price";
    Ok (dict [("comparison_available", PBool true);
              ("current_count", PNum cur_count);
              ("previous_count", PNum prev_count);
              ("count_change", PNum (cur_count - prev_count));
              ("avg_price_change", PNum avg_price_change);
              ("avg_price_change_percent", PNum avg_price_change_percent);
              ("median_price_change", PNum median_price_change);
              ("median_price_change_percent", PNum median_price_change_percent);
              ("max_price_change", PNum (cur_max - prev_max));
              ("min_price_change", PNum (cur_min - prev_min))]).

End AvitoAnalyzer.


(** ** Python text *)

(** The tables of the Unicode character database for the code points above
    ASCII, which the interpreter supplies: the digit value of a decimal
    character (category Nd), the further characters on which [str.isdigit]
    holds, the whitespace characters, and [str.lower]. *)
Class Unicode : Type := {
  ucd_decimal : N -> option N;
  ucd_digit : N -> bool;
  ucd_space : N -> bool;
  ucd_lower : pystr -> pystr
}.

Fixpoint skip_while (p : N -> bool) (s : pystr) : pystr :=
  match s with
  | c :: s' => if p c then skip_while p s' else s
  | [] => []
  end.

Fixpoint span_while (p : N -> bool) (s : pystr) : pystr :=
  match s with
  | c :: s' => if p c then c :: span_while p s' else []
  | [] => []
  end.

Definition strip_by (p : N -> bool) (s : pystr) : pystr :=
  rev (skip_while p (rev (skip_while p s))).

(** [s.replace(c, '')] for a one-character [c] *)
Definition remove_char (c : N) (s : pystr) : pystr :=
  List.filter (fun x => negb (x =? c)%N) s.

Fixpoint starts_with (p s : pystr) : bool :=
  match p, s with
  | [], _ => true
  | a :: p', b :: s' => (a =? b)%N && starts_with p' s'
  | _ :: _, [] => false
  end.

(** [sub in s] *)
Fixpoint contains (sub s : pystr) : bool :=
  starts_with sub s ||
  match s with
  | [] => false
  | _ :: s' => contains sub s'
  end.

Definition is_ascii (c : N) : bool := (c <? 128)%N.

Definition ascii_lower (c : N) : N :=
  if (65 <=? c)%N && (c <=? 90)%N then (c + 32)%N else c.

Definition is_token (s : pystr) (tok : string) : bool :=
  bool_decide (map ascii_lower s = py tok).

Section Text.
Context `{Unicode}.

Definition decimal_value (c : N) : option N :=
  if is_ascii c
  then if (48 <=? c)%N && (c <=? 57)%N then Some (c - 48)%N else None
  else ucd_decimal c.

(** [\d] of [re] on text, [str.isdecimal] *)
Definition is_decimal (c : N) : bool :=
  match decimal_value c with
  | Some _ => true
  | None => false
  end.

(** [str.isdigit] *)
Definition isdigit (c : N) : bool :=
  is_decimal c || (negb (is_ascii c) && ucd_digit c).

(** [\s] of [re] on text, [str.isspace] *)
Definition isspace (c : N) : bool :=
  if is_ascii c
  then ((9 <=? c)%N && (c <=? 13)%N) || ((28 <=? c)%N && (c <=? 32)%N)
  else ucd_space c.

(** [str.strip()] *)
Definition strip (s : pystr) : pystr := strip_by isspace s.

(** [str.lower()] *)
Definition lower (s : pystr) : pystr := ucd_lower s.

(** The whitespace [float()] removes around its argument. *)
Definition float_space (c : N) : bool :=
  if is_ascii c
  then ((9 <=? c)%N && (c <=? 13)%N) || (c =? 32)%N
  else ucd_space c.

(** An underscore of a numeric literal stands between two digits. *)
Fixpoint underscores_ok (prev_digit : bool) (s : pystr) : bool :=
  match s with
  | [] => true
  | c :: s' =>
      if (c =? 95)%N
      then prev_digit
           && match s' with d :: _ => is_decimal d | [] => false end
           && underscores_ok false s'
      else underscores_ok (is_decimal c) s'
  end.

Fixpoint span_digits (s : pystr) : list N * pystr :=
  match s with
  | c :: s' =>
      match decimal_value c with
      | Some d => let '(ds, r) := span_digits s' in (d :: ds, r)
      | None => ([], s)
      end
  | [] => ([], [])
  end.

Definition digits_value (ds : list N) : N :=
  fold_left (fun acc d => (acc * 10 + d)%N) ds 0%N.

Definition sign_split (s : pystr) : bool * pystr :=
  match s with
  | c :: r => if (c =? 43)%N then (false, r)
              else if (c =? 45)%N then (true, r)
              else (false, s)
  | [] => (false, [])
  end.

Definition parse_exponent (s : pystr) : option Z :=
  match s with
  | [] => Some 0%Z
  | c :: r =>
      if (c =? 101)%N || (c =? 69)%N
      then let '(neg, r') := sign_split r in
           match span_digits r' with
           | (d :: ds, []) =>
               let v := Z.of_N (digits_value (d :: ds)) in
               Some (if neg then (- v)%Z else v)
           | _ => None
           end
      else None
  end.

(** A decimal literal [digits [. digits] [e [sign] digits]] with its exact
    value. *)
Definition parse_decimal (s : pystr) : option Q :=
  let '(ip, r1) := span_digits s in
  let '(fp, r2) :=
    match r1 with
    | c :: r => if (c =? 46)%N then span_digits r else ([], r1)
    | [] => ([], [])
    end in
  match ip ++ fp with
  | [] => None
  | ds =>
      match parse_exponent r2 with
      | Some e =>
          Some (inject_Z (Z.of_N (digits_value ds))
                * Qpower 10 (e - Z.of_nat (length fp)))%Q
      | None => None
      end
  end.

(** [float(s)] on text *)
Definition py_float (s : pystr) : result pyval :=
  let s := strip_by float_space s in
  if negb (underscores_ok false s)
  then Raise (Exn ValueError s)
  else
    let '(neg, body) := sign_split (remove_char 95 s) in
    if is_token body "inf" || is_token body "infinity" then Ok (PInf neg)
    else if is_token body "nan" then Ok PNaN
    else match parse_decimal body with
         | Some q => Ok (PNum (if neg then (- q)%Q else q))
         | None => Raise (Exn ValueError s)
         end.

(** [re.search(prefix + r'(\d+)' + suffix, s).group(1)], [prefix] and
    [suffix] literal. *)
Definition match_digits (prefix suffix s : pystr) : option pystr :=
  if starts_with prefix s
  then let rest := drop (length prefix) s in
       let ds := span_while is_decimal rest in
       if negb (is_empty ds) && starts_with suffix (drop (length ds) rest)
       then Some ds else None
  else None.

Fixpoint search_digits (prefix suffix s : pystr) : option pystr :=
  match match_digits prefix suffix s with
  | Some g => Some g
  | None =>
      match s with
      | [] => None
      | _ :: s' => search_digits prefix suffix s'
      end
  end.

(** [re.search(r'(\d[\d\s]*\d|\d+)[.,]?\d*\s*(руб|₽)?', s).group(1)]: the
    match starts at the first decimal character; the group runs over the
    decimal and whitespace characters that follow, up to the last decimal
    one. *)
Definition search_price_text (s : pystr) : option pystr :=
  match skip_while (fun c => negb (is_decimal c)) s with
  | [] => None
  | d :: r =>
      let run := span_while (fun c => is_decimal c || isspace c) r in
      Some (d :: rev (skip_while (fun c => negb (is_decimal c)) (rev run)))
  end.

End Text.



(** [str(n)] on an integer *)
Definition py_str (n : Z) : pystr := py (pretty n).

(** ** The parser *)

Module AvitoParser.

(** The CSS selectors the extractor queries. *)
Inductive selector : Type :=
| sel_itemprop_name        (* [itemprop="name"] *)
| sel_title_root           (* .title-root *)
| sel_item_title           (* [data-marker="item-title"] *)
| sel_a_href_root          (* a[href^="/"] *)
| sel_a_itemprop_url       (* a[itemprop="url"] *)
| sel_item_price           (* [data-marker="item-price"] *)
| sel_itemprop_price       (* [itemprop="price"] *)
| sel_styles_module_root   (* .styles-module-root-_KFFt *)
| sel_price_text           (* .price-text *)
| sel_class_price          (* [class*="price"] *)
| sel_item_date            (* [data-marker="item-date"] *)
| sel_item_location        (* [data-marker="item-location"] *)
| sel_class_geo            (* [class*="geo"] *)
| sel_class_location.      (* [class*="location"] *)

(** An element found by [select_one]: its [.text] and its [.attrs]. *)
Record Element : Type := {
  text : pystr;
  attrs : gmap string pystr
}.

(** A listing fragment, as the extractor observes it.  The argument of
    [_parse_item] is any object: each of its methods may raise. *)
Record Fragment : Type := {
  tag_attr : string -> result (option pystr);
  tag_select_one : selector -> result (option Element);
  tag_str : result pystr;
  tag_get_text : result pystr
}.

(** What one HTTP request comes to: the body of the [try] in
    [_make_request] returns the response text, raises a
    [requests.RequestException] (time-out, connection error, error status),
    or raises something else. *)
Inductive attempt : Type :=
| Response (body : pystr)
| RequestException (msg : pystr)
| OtherException (e : exn).

(** The environment of a run: the outcome of the [n]-th request, the
    [n]-th value of [random.random()], and the listing fragments
    [BeautifulSoup(html, 'lxml').select('[data-marker="item"]')] of a page. *)
Class Network : Type := {
  session_get : nat -> pystr -> attempt;
  random : nat -> Q;
  select_items : pystr -> list Fragment
}.

(** The effects of a run: requests sent, random values drawn, and the
    arguments of [time.sleep], oldest first. *)
Record world : Type := World {
  requests : nat;
  draws : nat;
  slept : list Q
}.

Definition IO (A : Type) : Type := world -> result A * world.

#[global] Instance IO_ret : MRet IO := fun A a w => (Ok a, w).

#[global] Instance IO_bind : MBind IO := fun A B k m w =>
  match m w with
  | (Ok a, w') => k a w'
  | (Raise e, w') => (Raise e, w')
  end.

Definition lift {A : Type} (r : result A) : IO A := fun w => (r, w).

Definition http_get `{Network} (url : pystr) : IO attempt := fun w =>
  (Ok (session_get (requests w) url),
   World (S (requests w)) (draws w) (slept w)).

(** [random.uniform(a, b)] is [a + (b - a) * random.random()]. *)
Definition uniform `{Network} (a b : Q) : IO Q := fun w =>
  (Ok (a + (b - a) * random (draws w))%Q,
   World (requests w) (S (draws w)) (slept w)).

Definition sleep (t : Q) : IO unit := fun w =>
  (Ok tt, World (requests w) (draws w) (slept w ++ [t])).

Record parser : Type := Parser {
  timeout : Z;
  max_retries : Z;
  delay : Z;
  rotate_ua : bool
}.

Definition NO_TITLE : pystr :=   (* "Нет заголовка" *)
  [1053; 1077; 1090; 32; 1079; 1072; 1075; 1086; 1083; 1086; 1074; 1082; 1072]%N.

Definition NOT_SPECIFIED : pystr :=   (* "Не указано" *)
  [1053; 1077; 32; 1091; 1082; 1072; 1079; 1072; 1085; 1086]%N.

Definition DELIVERY : pystr :=   (* "доставка" *)
  [1076; 1086; 1089; 1090; 1072; 1074; 1082; 1072]%N.

Definition quote : N := 34%N.

(** The four patterns searched in the markup, each a literal, [(\d+)] and
    a literal:  data-price="(\d+)"   price":"(\d+)"   price":(\d+)
    price=(\d+) *)
Definition price_patterns : list (pystr * pystr) :=
  [ (py "data-price=" ++ [quote], [quote]);
    (py "price" ++ [quote] ++ py ":" ++ [quote], [quote]);
    (py "price" ++ [quote] ++ py ":", []);
    (py "price=", []) ].

Section Parser.
Context `{Unicode}.



(** [item_element.get(key, default)] *)
Definition get (item_element : Fragment) (key : string) (default : pystr)
  : result pystr :=
  v ← tag_attr item_element key;
  Ok match v with Some value => value | None => default end.

(** [select_one(s1) or select_one(s2) or ...] *)
Fixpoint select_first (item_element : Fragment) (selectors : list selector)
  : result (option Element) :=
  match selectors with
  | [] => Ok None
  | sel :: rest =>
      el ← tag_select_one item_element sel;
      match el with
      | Some _ => Ok el
      | None => select_first item_element rest
      end
  end.

(** [item_data['price'] == 0] *)
Definition price_is_zero (item_data : pydict) : bool :=
  match item_data !! "price" with
  | Some (PNum q) => Qeq_bool q 0
  | _ => false
  end.

(** The loop over [price_patterns], which stops at the first pattern whose
    match converts. *)
Fixpoint pattern_price (patterns : list (pystr * pystr)) (html_str : pystr)
  (item_data : pydict) : result pydict :=
  match patterns with
  | [] => Ok item_data
  | (prefix, suffix) :: rest =>
      match search_digits prefix suffix html_str with
      | Some group1 =>
          match py_float group1 with
          | Ok v => Ok (<["price" := v]> item_data)
          | Raise (Exn ValueError _) | Raise (Exn IndexError _) =>
              pattern_price rest html_str item_data
          | Raise e => Raise e
          end
      | None => pattern_price rest html_str item_data
      end
  end.

(** The body of the [try] of [_parse_item], one definition for each of its
    parts; each takes [item_data] and returns it updated. *)

(* ID объявления *)
Definition set_id (item_element : Fragment) (item_data : pydict) : result pydict :=
  item_id ← get item_element "data-item-id" [];
  item_id ← (if is_empty item_id
             then s ← get item_element "id" []; Ok (remove_char 105 s)
             else Ok item_id);
  Ok (<["id" := PStr item_id]> item_data).

(* Заголовок объявления *)
Definition set_title (item_element : Fragment) (item_data : pydict)
  : result pydict :=
  title_element ←
    select_first item_element [sel_itemprop_name; sel_title_root; sel_item_title];
  Ok (<["title" := PStr match title_element with
                        | Some el => strip (text el)
                        | None => NO_TITLE
                        end]> item_data).

(* Ссылка на объявление *)
Definition set_url (item_element : Fragment) (item_data : pydict) : result pydict :=
  link_element ← select_first item_element [sel_a_href_root; sel_a_itemprop_url];
  Ok (<["url" := PStr match link_element with
                      | Some el =>
                          match attrs el !! "href" with
                          | Some href => py "https://www.avito.ru" ++ href
                          | None => []
                          end
                      | None => []
                      end]> item_data).

Definition price_selectors : list selector :=
  [sel_item_price; sel_itemprop_price; sel_styles_module_root;
   sel_price_text; sel_class_price].

(* Цена *)
Definition set_price (item_element : Fragment) (item_data : pydict)
  : result pydict :=
  price_element ← select_first item_element price_selectors;
  match price_element with
  | Some el =>
      let price_text := strip (text el) in
      let price := List.filter (fun x => isdigit x || (x =? 46)%N) price_text in
      if is_empty price then Ok (<["price" := PNum 0]> item_data)
      else match py_float price with
           | Ok v => Ok (<["price" := v]> item_data)
           | Raise (Exn ValueError _) => Ok (<["price" := PNum 0]> item_data)
           | Raise e => Raise e
           end
  | None =>
      html_str ← tag_str item_element;
      pattern_price price_patterns html_str item_data
  end.

(* Если цена все еще 0, попробуем поискать цену в тексте объявления *)
Definition set_price_from_text (item_element : Fragment) (item_data : pydict)
  : result pydict :=
  if price_is_zero item_data
  then
    full_text ← tag_get_text item_element;
    match search_price_text full_text with
    | Some group1 =>
        let price_str := remove_char 32 group1 in
        match py_float price_str with
        | Ok v => Ok (<["price" := v]> item_data)
        | Raise (Exn ValueError _) => Ok item_data
        | Raise e => Raise e
        end
    | None => Ok item_data
    end
  else Ok item_data.

(* Дата публикации *)
Definition set_date (item_element : Fragment) (item_data : pydict)
  : result pydict :=
  date_element ← tag_select_one item_element sel_item_date;
  Ok (<["date" := PStr match date_element with
                       | Some el => strip (text el)
                       | None => []
                       end]> item_data).

(* Расположение *)
Definition set_location (item_element : Fragment) (item_data : pydict)
  : result pydict :=
  location_element ← select_first item_element [sel_item_location; sel_class_geo];
  match location_element with
  | Some el =>
      let location_text := strip (text el) in
      if contains DELIVERY (lower location_text)
      then
        alt_location ← tag_select_one item_element sel_class_location;
        match alt_location with
        | Some alt =>
            if negb (contains DELIVERY (lower (text alt)))
            then Ok (<["location" := PStr (strip (text alt))]> item_data)
            else Ok (<["location" := PStr NOT_SPECIFIED]> item_data)
        | None => Ok (<["location" := PStr NOT_SPECIFIED]> item_data)
        end
      else Ok (<["location" := PStr location_text]> item_data)
  | None => Ok (<["location" := PStr NOT_SPECIFIED]> item_data)
  end.

Definition parse_item_body (item_element : Fragment) : result pydict :=
  let item_data :=
    dict [("id", PStr []); ("title", PStr []); ("url", PStr []);
          ("price", PNum 0); ("date", PStr []); ("location", PStr [])] in
  item_data ← set_id item_element item_data;
  item_data ← set_title item_element item_data;
  item_data ← set_url item_element item_data;
  item_data ← set_price item_element item_data;
  item_data ← set_price_from_text item_element item_data;
  item_data ← set_date item_element item_data;
  item_data ← set_location item_element item_data;
  Ok item_data.

(** [str(e)] *)
Definition exn_str (e : exn) : pystr := let 'Exn _ msg := e in msg.

Definition _parse_item (item_element : Fragment) : result pydict :=
  try_except (parse_item_body item_element)
    (fun e =>
       Ok (dict [("id", PStr []); ("title", PStr []); ("url", PStr []);
                 ("price", PNum 0); ("date", PStr []); ("location", PStr []);
                 ("error", PStr (exn_str e))])).

Context `{Network}.

(** The [for attempt in range(self.max_retries)] loop of [_make_request],
    with [n] iterations to go. *)
Fixpoint make_request_loop (self : parser) (url : pystr) (attempt : Z) (n : nat)
  : IO (option pystr) :=
  match n with
  | O => mret None
  | S n' =>
      r ← http_get url;
      match r with
      | Response body => mret (Some body)
      | RequestException _ =>
          _ ← (if (attempt <? max_retries self - 1)%Z
               then jitter ← uniform 0 1;
                    sleep (inject_Z (delay self * (attempt + 1)) + jitter)%Q
               else mret tt);
          make_request_loop self url (attempt + 1)%Z n'
      | OtherException e => lift (Raise e)
      end
  end.

Definition _make_request (self : parser) (url : pystr) : IO (option pystr) :=
  make_request_loop self url 0 (Z.to_nat (max_retries self)).

(** The search URL after the [localPriority] adjustment that opens
    [parse_search_page]. *)
Definition search_url (url : pystr) (local_first : bool) : pystr :=
  if local_first && contains (py "?") url
     && negb (contains (py "&localPriority=1") url)
  then url ++ py "&localPriority=1"
  else if local_first && negb (contains (py "?") url)
  then url ++ py "?localPriority=1"
  else url.

Definition page_url (url : pystr) (page_num : Z) : pystr :=
  if contains (py "?") url
  then url ++ py "&p=" ++ py_str page_num
  else url ++ py "?p=" ++ py_str page_num.

(** The [for item in tqdm(items)] loop. *)
Fixpoint parse_items (limit : Z) (items : list Fragment)
  (all_items : list pydict) (items_count : Z) : result (list pydict * Z) :=
  match items with
  | [] => Ok (all_items, items_count)
  | item :: rest =>
      if (items_count >=? limit)%Z then Ok (all_items, items_count)
      else
        item_data ← _parse_item item;
        parse_items limit rest (all_items ++ [item_data]) (items_count + 1)%Z
  end.

(** How one pass through the body of the [while] loop ends: at a [break],
    or at the bottom of the body with the loop variables updated. *)
Inductive pass : Type :=
| Break (all_items : list pydict)
| Next (all_items : list pydict) (page_num : Z) (items_count : Z).

Definition page_pass (self : parser) (url : pystr) (limit : Z)
  (all_items : list pydict) (page_num : Z) (items_count : Z) : IO pass :=
  html_content ← _make_request self (page_url url page_num);
  match html_content with
  | None | Some [] => mret (Break all_items)
  | Some html =>
      let items := select_items html in
      if is_empty items then mret (Break all_items)
      else
        '(all_items, items_count) ← lift (parse_items limit items all_items items_count);
        if (items_count >=? limit)%Z then mret (Break all_items)
        else if (Z.of_nat (length items) <? 50)%Z then mret (Break all_items)
        else
          jitter ← uniform 0 2;
          _ ← sleep (inject_Z (delay self) + jitter)%Q;
          mret (Next all_items (page_num + 1)%Z items_count)
  end.

(** The [while items_count < limit] loop; [None] when [fuel] passes did not
    bring it to its end. *)
Fixpoint page_loop (fuel : nat) (self : parser) (url : pystr) (limit : Z)
  (all_items : list pydict) (page_num : Z) (items_count : Z)
  : IO (option (list pydict)) :=
  if negb (items_count <? limit)%Z then mret (Some all_items)
  else
    match fuel with
    | O => mret None
    | S fuel' =>
        p ← page_pass self url limit all_items page_num items_count;
        match p with
        | Break all_items => mret (Some all_items)
        | Next all_items page_num items_count =>
            page_loop fuel' self url limit all_items page_num items_count
        end
    end.

Definition parse_search_page (fuel : nat) (self : parser) (url : pystr)
  (limit : Z) (local_first : bool) : IO (option (list pydict)) :=
  page_loop fuel self (search_url url local_first) limit [] 1 0.

End Parser.

End AvitoParser.

(** ** Vocabulary of the properties, and examples *)

Import AvitoAnalyzer AvitoParser.

Definition stat_keys : list string :=
  ["count"; "avg_price"; "median_price"; "min_price"; "max_price"; "std_price"].

Definition example_prices : list Q := [100; 100; 100; 100; 10000]%Q.

Definition example_record (p : Q) : listing :=
  Listing (py "1") (py "item") [] p [] [].

Definition example_data : list listing := map example_record example_prices.

Fixpoint split_on (c : N) (s : pystr) : list pystr :=
  match s with
  | [] => [[]]
  | x :: s' =>
      if (x =? c)%N then [] :: split_on c s'
      else match split_on c s' with
           | word :: words => (x :: word) :: words
           | [] => [[x]]
           end
  end.

(** What follows the first question mark of a URL. *)
Definition query_of (url : pystr) : pystr :=
  match skip_while (fun c => negb (c =? 63)%N) url with
  | [] => []
  | _ :: query => query
  end.

(** The URL carries the query parameter [param], one of the fields of its
    query separated by ampersands. *)
Definition carries_param (param url : pystr) : bool :=
  bool_decide (param ∈ split_on 38 (query_of url)).

Definition url_first_param : pystr :=
  py "https://www.avito.ru/moskva/telefony?localPriority=1".

Definition url_other_value : pystr :=
  py "https://www.avito.ru/moskva/telefony?q=nokia&localPriority=10".


(** A character that is neither a sign nor the first letter of [inf] or
    [nan]. *)
Definition plain (c : N) : Prop :=
  c <> 43%N /\ c <> 45%N /\ ascii_lower c <> 105%N /\ ascii_lower c <> 110%N.


Definition text_fields : list string :=
  ["id"; "title"; "url"; "date"; "location"].

(** The record has its five text fields, each a string, and its price, a
    number that is not negative. *)
Definition record_ok (item_data : pydict) : Prop :=
  Forall (fun k => exists s, item_data !! k = Some (PStr s)) text_fields
  /\ exists q, item_data !! "price" = Some (PNum q) /\ (0 <= q)%Q.

(** The parts that set the price leave the record as it is or set a
    non-negative number. *)
Definition price_step (d d' : pydict) : Prop :=
  d' = d \/ exists q, (0 <= q)%Q /\ d' = <["price" := PNum q]> d.

(** Why a pass ends at a [break]: the fetch failed, the page has no
    listing, the limit is reached, or the page is shorter than 50. *)
Definition break_cause `{Unicode} `{Network} (self : parser) (url : pystr)
  (limit : Z) (page_num items_count : Z) (w : world) : Prop :=
  (exists w1, _make_request self (page_url url page_num) w = (Ok None, w1)
              \/ _make_request self (page_url url page_num) w = (Ok (Some []), w1))
  \/ exists html w1,
       _make_request self (page_url url page_num) w = (Ok (Some html), w1)
       /\ (select_items html = []
           \/ (limit <= items_count + Z.of_nat (length (select_items html)))%Z
           \/ (length (select_items html) < 50)%nat).

(** An interpreter table with nothing above ASCII. *)
Definition ascii_unicode : Unicode :=
  {| ucd_decimal := fun _ => None;
     ucd_digit := fun _ => false;
     ucd_space := fun _ => false;
     ucd_lower := fun s => s |}.

(** A fragment with no attribute, no element and no text. *)
Definition bare_fragment : Fragment :=
  {| tag_attr := fun _ => Ok None;
     tag_select_one := fun _ => Ok None;
     tag_str := Ok (py "<div></div>");
     tag_get_text := Ok [] |}.

(** A source on which every request succeeds and every page holds
    [per_page] listings. *)
Definition steady_source (per_page : nat) : Network :=
  {| session_get := fun _ _ => Response (py "<html>");
     random := fun _ => (1 # 2)%Q;
     select_items := fun _ => replicate per_page bare_fragment |}.

(** A source on which every request meets a transport failure. *)
Definition failing_source : Network :=
  {| session_get := fun _ _ => RequestException (py "timed out");
     random := fun _ => (1 # 2)%Q;
     select_items := fun _ => [] |}.

(** An interpreter table that knows the no-break space. *)
Definition nbsp_unicode : Unicode :=
  {| ucd_decimal := fun _ => None;
     ucd_digit := fun _ => false;
     ucd_space := fun c => (c =? 160)%N;
     ucd_lower := fun s => s |}.

(** A listing with an identifier, a title, a link and a price element. *)
Definition phone_fragment : Fragment :=
  {| tag_attr := fun key =>
       Ok (if String.eqb key "data-item-id" then Some (py "4012345678") else None);
     tag_select_one := fun sel =>
       Ok match sel with
          | sel_itemprop_name => Some {| text := py " iPhone 13 "; attrs := ∅ |}
          | sel_a_href_root =>
              Some {| text := [];
                      attrs := {["href" := py "/moskva/telefony/iphone_13"]} |}
          | sel_item_price =>
              Some {| text := py "45" ++ [160%N] ++ py "990" ++ [160%N; 8381%N];
                      attrs := ∅ |}
          | _ => None
          end;
     tag_str := Ok [];
     tag_get_text := Ok [] |}.

(** A listing whose price stands in its text only. *)
Definition text_fragment (full_text : pystr) : Fragment :=
  {| tag_attr := fun _ => Ok None;
     tag_select_one := fun _ => Ok None;
     tag_str := Ok (py "<div></div>");
     tag_get_text := Ok full_text |}.

(** A fragment that is no tag at all: every method raises. *)
Definition broken_fragment : Fragment :=
  {| tag_attr := fun _ => Raise (Exn AttributeError (py "get"));
     tag_select_one := fun _ => Raise (Exn AttributeError (py "select_one"));
     tag_str := Ok [];
     tag_get_text := Raise (Exn AttributeError (py "get_text")) |}.


Definition default_parser : parser := Parser 10 3 2 true.

Definition located (location : string) : listing :=
  Listing (py "1") (py "item") [] 100 [] (py location).

Definition example_locations : list listing :=
  map located ["Moscow"; " Kazan"; "Moscow"; ""; "Perm"].


Definition moscow_phones : pystr := py "https://www.avito.ru/moskva/telefony".

(** ** The rest of the analyzer *)

(** [location_counts[loc] = location_counts.get(loc, 0) + 1] on a
    dictionary kept in insertion order. *)
Fixpoint bump (loc : pystr) (counts : list (pystr * nat)) : list (pystr * nat) :=
  match counts with
  | [] => [(loc, 1%nat)]
  | (k, n) :: rest =>
      if bool_decide (k = loc) then (k, S n) :: rest
      else (k, n) :: bump loc rest
  end.

(** The loop that fills [location_counts]; empty locations are skipped. *)
Definition count_locations (locations : list pystr) : list (pystr * nat) :=
  fold_left (fun counts loc => if is_empty loc then counts else bump loc counts)
            locations [].

(** [sorted(items, key=lambda x: x[1], reverse=True)]: by decreasing count,
    items of equal count in their original order. *)
Fixpoint insert_desc (x : pystr * nat) (l : list (pystr * nat))
  : list (pystr * nat) :=
  match l with
  | [] => [x]
  | y :: l' => if (snd x <? snd y)%nat then y :: insert_desc x l' else x :: l
  end.

Definition sorted_desc (l : list (pystr * nat)) : list (pystr * nat) :=
  fold_right insert_desc [] l.

(** The slice [l[:limit]]; a negative [limit] counts from the end. *)
Definition slice_to {A : Type} (limit : Z) (l : list A) : list A :=
  if (0 <=? limit)%Z then take (Z.to_nat limit) l
  else take (length l - Z.to_nat (- limit)) l.

(** The result is a dictionary in insertion order: the list of its items. *)
Definition get_location_distribution `{Unicode} (data : list listing) (limit : Z)
  : list (pystr * nat) :=
  match data with
  | [] => []
  | _ =>
      let locations := map (fun item => strip (lst_location item)) data in
      let location_counts := count_locations locations in
      let sorted_locations := sorted_desc location_counts in
      slice_to limit sorted_locations
  end.

(** The records with a positive price, [df[df['price'] > 0]]. *)
Definition positive_records (data : list listing) : list listing :=
  List.filter (fun r => Qltb 0 (lst_price r)) data.

(** The number of occurrences of a location that is not empty in a list of
    locations. *)
Definition occ (loc : pystr) (locations : list pystr) : nat :=
  if is_empty loc then 0%nat
  else length (List.filter (fun l => bool_decide (l = loc)) locations).

(** [location_counts.get(loc)] *)
Fixpoint get_count (loc : pystr) (counts : list (pystr * nat)) : option nat :=
  match counts with
  | [] => None
  | (k, n) :: rest => if bool_decide (k = loc) then Some n else get_count loc rest
  end.

(** The stripped locations of the records. *)
Definition locations_of `{Unicode} (data : list listing) : list pystr :=
  map (fun item => strip (lst_location item)) data.

(** What the counting loop keeps true: the keys are distinct, and the count
    of a location is the number of its occurrences so far, none being
    recorded as 0. *)
Definition counted (seen : list pystr) (counts : list (pystr * nat)) : Prop :=
  List.NoDup (map fst counts)
  /\ forall k, get_count k counts
               = if (occ k seen =? 0)%nat then None else Some (occ k seen).

(** The distinct locations that are not empty, in the order in which they
    are first met. *)
Definition first_seen (locations : list pystr) : list pystr :=
  fold_left (fun seen loc =>
               if is_empty loc || bool_decide (loc ∈ seen) then seen
               else seen ++ [loc])
            locations [].

(** An entry comes before the entries of smaller or equal count. *)
Definition count_ge (a b : pystr * nat) : Prop := (snd b <= snd a)%nat.

(** How a call of [_make_request] that went from [w] to [w'] ended: its
    last request brought the text returned or the exception raised, or
    all its requests met a transport failure. *)
Definition last_attempt `{Network} (url : pystr) (w w' : world)
  (r : result (option pystr)) : Prop :=
  match r with
  | Ok (Some body) => session_get (requests w' - 1) url = Response body
  | Ok None =>
      forall i, (requests w <= i < requests w')%nat ->
                exists msg, session_get i url = RequestException msg
  | Raise e => session_get (requests w' - 1) url = OtherException e
  end.

(** The exception [e] comes out of a method of the fragment. *)
Definition raised_by (item_element : Fragment) (e : exn) : Prop :=
  (exists key, tag_attr item_element key = Raise e)
  \/ (exists sel, tag_select_one item_element sel = Raise e)
  \/ tag_str item_element = Raise e
  \/ tag_get_text item_element = Raise e.




(** ** The normalisation of the records in [main] *)






(** ** The summary *)
























Section Summary.
Context `{Unicode} `{Formatting}.








End Summary.

(** * Properties *)

(** ** The model at work *)

Example float_examples :
  map (fun s => @py_float ascii_unicode (py s))
      ["45990"; " 12.50 "; "1_000"; "."; "1.2.3"; "-7"; "nan"; "1e3"]
  = [Ok (PNum 45990); Ok (PNum 12.50); Ok (PNum 1000);
     Raise (Exn ValueError (py ".")); Raise (Exn ValueError (py "1.2.3"));
     Ok (PNum (-7)); Ok PNaN; Ok (PNum 1000)].
Proof. vm_compute. reflexivity. Qed.

Example search_digits_example :
  @search_digits ascii_unicode (py "price=") [] (py "<a price=x data price=1200>")
  = Some (py "1200").
Proof. reflexivity. Qed.

Example parse_item_phone :
  exists item_data,
    @_parse_item nbsp_unicode phone_fragment = Ok item_data
    /\ item_data !! "id" = Some (PStr (py "4012345678"))
    /\ item_data !! "title" = Some (PStr (py "iPhone 13"))
    /\ item_data !! "url"
       = Some (PStr (py "https://www.avito.ru/moskva/telefony/iphone_13"))
    /\ item_data !! "price" = Some (PNum 45990)
    /\ item_data !! "date" = Some (PStr [])
    /\ item_data !! "location" = Some (PStr NOT_SPECIFIED)
    /\ item_data !! "error" = None.
Proof. eexists. repeat split; vm_compute; reflexivity. Qed.

(** A price found in the text converts when its groups of digits are
    separated by spaces, and is dropped when they are separated by no-break
    spaces, which [replace(' ', '')] leaves in place. *)
Example parse_item_text_price :
  (exists item_data,
      @_parse_item nbsp_unicode (text_fragment (py "iPhone 45 990 rub"))
      = Ok item_data
      /\ item_data !! "price" = Some (PNum 45990))
  /\ (exists item_data,
         @_parse_item nbsp_unicode
           (text_fragment (py "iPhone 45" ++ [160%N] ++ py "990 rub"))
         = Ok item_data
         /\ item_data !! "price" = Some (PNum 0)).
Proof. split; eexists; split; vm_compute; reflexivity. Qed.

Example parse_item_broken :
  exists item_data,
    @_parse_item ascii_unicode broken_fragment = Ok item_data
    /\ item_data !! "price" = Some (PNum 0)
    /\ item_data !! "error" = Some (PStr (py "get")).
Proof. eexists. repeat split; vm_compute; reflexivity. Qed.

Example make_request_example :
  @_make_request failing_source default_parser moscow_phones (World 0 0 [])
  = (Ok None, World 3 2 [2 + (0 + (1 - 0) * (1 # 2)); 4 + (0 + (1 - 0) * (1 # 2))]%Q).
Proof. reflexivity. Qed.

Example get_price_statistics_example :
  map (fun k => get_price_statistics (example_record 0 :: example_data) !! k)
      ["count"; "min_price"; "max_price"; "zero_prices_count"]
  = [Some (PNum 6); Some (PNum 100); Some (PNum 10000); Some (PNum 1)].
Proof. reflexivity. Qed.

(** ** Arithmetic of the statistics *)

Lemma Qltb_lt (x y : Q) : Qltb x y = true <-> (x < y)%Q.
Proof.
  unfold Qltb. rewrite negb_true_iff, <- not_true_iff_false, Qle_bool_iff.
  split; [apply Qnot_le_lt | apply Qlt_not_le].
Qed.

Lemma Qltb_ge (x y : Q) : Qltb x y = false <-> (y <= x)%Q.
Proof.
  unfold Qltb. rewrite negb_false_iff. apply Qle_bool_iff.
Qed.

Lemma py_min_le_acc (xs : list Q) (x : Q) :
  (py_min x xs <= x)%Q /\ Forall (fun y => (py_min x xs <= y)%Q) xs.
Proof.
  unfold py_min. revert x. induction xs as [|y ys IH]; intros x; simpl.
  - split; [apply Qle_refl | constructor].
  - destruct (Qltb y x) eqn:E.
    + apply Qltb_lt in E. destruct (IH y) as [H1 H2].
      split; [lra | constructor; [exact H1 | exact H2]].
    + apply Qltb_ge in E. destruct (IH x) as [H1 H2].
      split; [exact H1 | constructor; [lra | exact H2]].
Qed.

Lemma py_max_ge_acc (xs : list Q) (x : Q) :
  (x <= py_max x xs)%Q /\ Forall (fun y => (y <= py_max x xs)%Q) xs.
Proof.
  unfold py_max. revert x. induction xs as [|y ys IH]; intros x; simpl.
  - split; [apply Qle_refl | constructor].
  - destruct (Qltb x y) eqn:E.
    + apply Qltb_lt in E. destruct (IH y) as [H1 H2].
      split; [lra | constructor; [exact H1 | exact H2]].
    + apply Qltb_ge in E. destruct (IH x) as [H1 H2].
      split; [exact H1 | constructor; [lra | exact H2]].
Qed.

Lemma len_cons (x : Q) (xs : list Q) : (len (x :: xs) == len xs + 1)%Q.
Proof.
  unfold len. cbn [length]. rewrite Nat2Z.inj_succ, <- Z.add_1_r.
  rewrite inject_Z_plus. reflexivity.
Qed.

Lemma len_nonneg (xs : list Q) : (0 <= len xs)%Q.
Proof.
  unfold len. change 0%Q with (inject_Z 0). rewrite <- Zle_Qle. lia.
Qed.




(** ** The statistics result *)

Lemma positive_prices_filter (data : list listing) :
  Exists (fun r => (0 < lst_price r)%Q) data ->
  List.filter (fun p => Qltb 0 p) (map lst_price data) <> [].
Proof.
  induction 1 as [r rest Hr | r rest _ IH]; simpl.
  - apply Qltb_lt in Hr. rewrite Hr. discriminate.
  - destruct (Qltb 0 (lst_price r)); [discriminate | exact IH].
Qed.

Lemma filter_length_split {A : Type} (f : A -> bool) (l : list A) :
  (length l - length (List.filter f l))%nat
  = length (List.filter (fun x => negb (f x)) l).
Proof.
  induction l as [|a l IH]; simpl; [reflexivity |].
  pose proof (List.filter_length_le f l) as Hle.
  destruct (f a); simpl; lia.
Qed.


(** On a non-empty input the result carries [zero_prices_count] next to the
    six statistics; when some price is positive it counts the records
    whose price is not. *)
Lemma zero_prices_count_nonempty (data : list listing) :
  data <> [] ->
  Forall (fun k => is_Some (get_price_statistics data !! k))
         ("zero_prices_count" :: stat_keys)
  /\ (Exists (fun r => (0 < lst_price r)%Q) data ->
      get_price_statistics data !! "zero_prices_count"
      = Some (PNum (of_nat (length
          (List.filter (fun r => negb (Qltb 0 (lst_price r))) data))))).
Proof.
  intros Hne. destruct data as [|r rest]; [congruence | clear Hne].
  unfold get_price_statistics.
  set (data := r :: rest).
  destruct (List.filter (fun p => Qltb 0 p) (map lst_price data))
    as [|p ps] eqn:Hpos.
  - split.
    + repeat constructor; eexists; reflexivity.
    + intros Hex. apply positive_prices_filter in Hex. congruence.
  - split.
    + repeat constructor; eexists; reflexivity.
    + intros _.
      assert (Hcount :
        (length (map lst_price data) - length (p :: ps))%nat
        = length (List.filter (fun r => negb (Qltb 0 (lst_price r))) data)).
      { rewrite <- Hpos, filter_length_split. clear.
        induction data as [|a l IH]; simpl; [reflexivity |].
        destruct (Qltb 0 (lst_price a)); simpl; congruence. }
      rewrite <- Hcount. reflexivity.
Qed.

(** C10. On the empty list [get_price_statistics] returns the six
    statistics, all zero, and no [zero_prices_count] entry. *)
Theorem get_price_statistics_empty_no_zero_prices_count :
  Forall (fun k => get_price_statistics [] !! k = Some (PNum 0)) stat_keys
  /\ get_price_statistics [] !! "zero_prices_count" = None.
Proof.
  split; [repeat constructor | reflexivity].
Qed.

(** ** The comparison *)

Lemma change_percent_ok (change previous : Q) :
  exists q, change_percent change previous = Ok q
            /\ ((previous <= 0)%Q -> q = 0%Q).
Proof.
  unfold change_percent, py_div.
  destruct (Qltb 0 previous) eqn:Hpos.
  - apply Qltb_lt in Hpos.
    destruct (Qeq_bool previous 0) eqn:Hz.
    + apply Qeq_bool_iff in Hz. lra.
    + eexists. split; [reflexivity |]. intros Hle. lra.
  - exists 0%Q. split; [reflexivity | reflexivity].
Qed.

Lemma stats_num_item (data : list listing) (k : string) :
  data <> [] ->
  In k ["count"; "avg_price"; "median_price"; "min_price"; "max_price"] ->
  exists q, get_price_statistics data !! k = Some (PNum q).
Proof.
  intros Hne Hk. destruct data as [|r rest]; [congruence | clear Hne].
  unfold get_price_statistics.
  destruct (List.filter (fun p => Qltb 0 p) (map lst_price (r :: rest)));
    repeat (destruct Hk as [<- | Hk]; [eexists; reflexivity |]);
    destruct Hk.
Qed.

Lemma num_item_lookup (d : pydict) (k : string) (q : Q) :
  d !! k = Some (PNum q) -> num_item d k = Ok q.
Proof. unfold num_item. intros ->. reflexivity. Qed.

(** C5. On two non-empty record lists [compare_with_previous] returns a
    result, no division by zero being raised, in which
    [avg_price_change_percent] is 0 when the previous average is not
    positive, and [median_price_change_percent] is 0 when the previous
    median is not positive. *)
Theorem compare_with_previous_percent_guard
  (current_data previous_data : list listing) :
  current_data <> [] -> previous_data <> [] ->
  exists comparison,
    compare_with_previous current_data previous_data = Ok comparison
    /\ (forall avg, get_price_statistics previous_data !! "avg_price"
                    = Some (PNum avg) ->
                    (avg <= 0)%Q ->
                    comparison !! "avg_price_change_percent" = Some (PNum 0))
    /\ (forall med, get_price_statistics previous_data !! "median_price"
                    = Some (PNum med) ->
                    (med <= 0)%Q ->
                    comparison !! "median_price_change_percent" = Some (PNum 0)).
Proof.
  intros Hc Hp.
  destruct (stats_num_item current_data "avg_price" Hc) as [ca Hca];
    [simpl; tauto |].
  destruct (stats_num_item previous_data "avg_price" Hp) as [pa Hpa];
    [simpl; tauto |].
  destruct (stats_num_item current_data "median_price" Hc) as [cm Hcm];
    [simpl; tauto |].
  destruct (stats_num_item previous_data "median_price" Hp) as [pm Hpm];
    [simpl; tauto |].
  destruct (stats_num_item current_data "count" Hc) as [cc Hcc];
    [simpl; tauto |].
  destruct (stats_num_item previous_data "count" Hp) as [pc Hpc];
    [simpl; tauto |].
  destruct (stats_num_item current_data "max_price" Hc) as [cx Hcx];
    [simpl; tauto |].
  destruct (stats_num_item previous_data "max_price" Hp) as [px Hpx];
    [simpl; tauto |].
  destruct (stats_num_item current_data "min_price" Hc) as [cn Hcn];
    [simpl; tauto |].
  destruct (stats_num_item previous_data "min_price" Hp) as [pn Hpn];
    [simpl; tauto |].
  destruct (change_percent_ok (ca - pa) pa) as (qa & Hqa & Hza).
  destruct (change_percent_ok (cm - pm) pm) as (qm & Hqm & Hzm).
  unfold compare_with_previous.
  destruct current_data as [|c cs]; [congruence |].
  destruct previous_data as [|p ps]; [congruence |].
  cbn [is_empty orb].
  rewrite (num_item_lookup _ _ _ Hca), (num_item_lookup _ _ _ Hpa),
    (num_item_lookup _ _ _ Hcm), (num_item_lookup _ _ _ Hpm),
    (num_item_lookup _ _ _ Hcc), (num_item_lookup _ _ _ Hpc),
    (num_item_lookup _ _ _ Hcx), (num_item_lookup _ _ _ Hpx),
    (num_item_lookup _ _ _ Hcn), (num_item_lookup _ _ _ Hpn).
  cbn [mbind result_bind]. rewrite Hqa. cbn [mbind result_bind].
  rewrite Hqm. cbn [mbind result_bind].
  eexists. split; [reflexivity |]. split.
  - intros avg Havg Hle. rewrite Hpa in Havg. injection Havg as <-.
    rewrite (Hza Hle). reflexivity.
  - intros med Hmed Hle. rewrite Hpm in Hmed. injection Hmed as <-.
    rewrite (Hzm Hle). reflexivity.
Qed.

(** ** Outliers *)

Lemma Rlt_div_iff (a b c : R) :
  (0 < c)%R -> (a < b / c)%R <-> (a * c < b)%R.
Proof.
  intros Hc. split; intros Hlt.
  - replace b with (b / c * c)%R by (field; Lra.lra).
    apply Rmult_lt_compat_r; assumption.
  - apply Rmult_lt_reg_r with c; [assumption |].
    replace (b / c * c)%R with b by (field; Lra.lra). assumption.
Qed.

(** [abs_z_gt] decides the comparison of the z-score, a real number, with
    the threshold. *)
Lemma abs_z_gt_spec (p m v t : Q) :
  (0 < v)%Q ->
  abs_z_gt p m v t = true
  <-> (Rabs ((Q2R p - Q2R m) / sqrt (Q2R v)) > Q2R t)%R.
Proof.
  intros Hv.
  assert (HV : (0 < Q2R v)%R).
  { replace 0%R with (Q2R 0) by (unfold Q2R; simpl; Lra.lra). now apply Qlt_Rlt. }
  pose proof (sqrt_lt_R0 _ HV) as Hs.
  pose proof (sqrt_sqrt (Q2R v) (Rlt_le _ _ HV)) as Hss.
  set (s := sqrt (Q2R v)) in *. set (D := (Q2R p - Q2R m)%R).
  assert (Habs : (Rabs (D / s) = Rabs D / s)%R).
  { unfold Rdiv. rewrite Rabs_mult, (Rabs_pos_eq (/ s)); [reflexivity |].
    apply Rlt_le, Rinv_0_lt_compat, Hs. }
  rewrite Habs. unfold abs_z_gt.
  pose proof (Rabs_pos D) as HD.
  destruct (Qltb t 0) eqn:Ht.
  - apply Qltb_lt in Ht. apply Qlt_Rlt in Ht.
    replace (Q2R 0) with 0%R in Ht by (unfold Q2R; simpl; Lra.lra).
    split; [intros _ | reflexivity].
    assert (0 <= Rabs D / s)%R; [| Lra.lra].
    apply Rmult_le_pos; [exact HD | apply Rlt_le, Rinv_0_lt_compat, Hs].
  - apply Qltb_ge in Ht. apply Qle_Rle in Ht.
    replace (Q2R 0) with 0%R in Ht by (unfold Q2R; simpl; Lra.lra).
    rewrite Qltb_lt.
    assert (Hsq : (Rabs D * Rabs D = D * D)%R).
    { unfold Rabs. destruct (Rcase_abs D); Lra.lra. }
    split.
    + intros Hlt. apply Qlt_Rlt in Hlt.
      rewrite !Q2R_mult, !Q2R_minus in Hlt. fold D in Hlt.
      apply Rlt_gt, Rlt_div_iff; [exact Hs |].
      apply Rsqr_incrst_0; [| apply Rmult_le_pos; Lra.lra | exact HD].
      unfold Rsqr. rewrite Hsq.
      replace (Q2R t * s * (Q2R t * s))%R with (Q2R t * Q2R t * (s * s))%R
        by Lra.lra.
      rewrite Hss. exact Hlt.
    + intros Hgt. apply Rgt_lt in Hgt.
      apply (Rlt_div_iff (Q2R t) (Rabs D) s Hs) in Hgt.
      apply Rlt_Qlt. rewrite !Q2R_mult, !Q2R_minus. fold D.
      apply Rsqr_incrst_1 in Hgt; [| apply Rmult_le_pos; Lra.lra | exact HD].
      unfold Rsqr in Hgt. rewrite Hsq in Hgt.
      replace (Q2R t * s * (Q2R t * s))%R with (Q2R t * Q2R t * (s * s))%R
        in Hgt by Lra.lra.
      rewrite Hss in Hgt. exact Hgt.
Qed.

(** On the example prices the population variance is the square of 3960,
    so that with [np.std] in place of pandas' [std] the z-score of the
    price 10000 would be 2, which is not above the threshold either. *)
Lemma example_population_z :
  (np_var example_prices == 3960 * 3960)%Q
  /\ abs_z_gt 10000 (mean example_prices) (np_var example_prices) 2 = false.
Proof. split; reflexivity. Qed.

(** C1, as stated, fails: on records with the prices 100, 100, 100, 100 and
    10000 and the threshold 2, [find_outliers] does not return the record
    with the price 10000. *)
Lemma find_outliers_example_counterexample :
  find_outliers example_data 2 <> [example_record 10000].
Proof. vm_compute. discriminate. Qed.

(** C1, amended.  On every record list with the prices 100, 100, 100, 100
    and 10000, [find_outliers] with the threshold 2 returns the empty
    list.  The z-score is taken with the mean 2080 and the sample standard
    deviation (ddof = 1), the square root of 19602000, and no record has a
    z-score above 2 in absolute value. *)
Theorem find_outliers_example (data : list listing) :
  map lst_price data = example_prices ->
  find_outliers data 2 = []
  /\ exists var_price,
       pd_var (map lst_price data) = Some var_price
       /\ (mean (map lst_price data) == 2080)%Q
       /\ (var_price == 19602000)%Q
       /\ Forall (fun r =>
                    ~ (Rabs ((Q2R (lst_price r) - Q2R (mean (map lst_price data)))
                             / sqrt (Q2R var_price)) > Q2R 2)%R) data.
Proof.
  intros Hprices.
  assert (Hz : forall var_price,
             pd_var (map lst_price data) = Some var_price ->
             (0 < var_price)%Q ->
             Forall (fun r => abs_z_gt (lst_price r) (mean (map lst_price data))
                                       var_price 2 = false) data ->
             Forall (fun r =>
                       ~ (Rabs ((Q2R (lst_price r)
                                 - Q2R (mean (map lst_price data)))
                                / sqrt (Q2R var_price)) > Q2R 2)%R) data).
  { intros v _ Hv Hall. eapply Forall_impl; [exact Hall |].
    intros r Hr Hgt. apply (abs_z_gt_spec _ _ _ _ Hv) in Hgt. congruence. }
  do 5 (destruct data as [|[? ? ? ? ? ?] data]; [discriminate |]).
  destruct data; [| discriminate].
  unfold example_prices in Hprices. cbn [map lst_price] in Hprices.
  injection Hprices as -> -> -> -> ->.
  split; [vm_compute; reflexivity |].
  eexists. split; [reflexivity |].
  split; [reflexivity |]. split; [reflexivity |].
  apply Hz; [reflexivity | reflexivity |].
  repeat constructor.
Qed.

(** ** The search URL *)

(** C8.  A URL whose query starts with [localPriority=1] carries the
    parameter, and [search_url] appends it a second time; a URL with
    [localPriority=10] does not carry it, and [search_url] leaves the URL as
    it is. *)
Theorem search_url_local_priority_missed :
  (carries_param (py "localPriority=1") url_first_param = true
   /\ search_url url_first_param true
      = url_first_param ++ py "&localPriority=1")
  /\ (carries_param (py "localPriority=1") url_other_value = false
      /\ search_url url_other_value true = url_other_value).
Proof. split; split; vm_compute; reflexivity. Qed.

Lemma app_neq_self (s t : pystr) : t <> [] -> s ++ t <> s.
Proof.
  intros Ht Heq. apply (f_equal (@length N)) in Heq.
  rewrite length_app in Heq. destruct t; [congruence | simpl in Heq; lia].
Qed.

(** What the code does: with [local_first] the URL is left unchanged
    exactly when it holds a question mark and the text [&localPriority=1]. *)
Lemma search_url_unchanged_iff (url : pystr) :
  search_url url true = url
  <-> contains (py "?") url = true
      /\ contains (py "&localPriority=1") url = true.
Proof.
  unfold search_url. cbn [andb].
  destruct (contains (py "?") url), (contains (py "&localPriority=1") url);
    cbn [andb negb]; split; try tauto; try (intros [? ?]; discriminate);
    intros Heq; exfalso; revert Heq; apply app_neq_self; discriminate.
Qed.

(** ** The fetcher *)

Section Fetcher.
Context `{Network}.
Variable self : parser.
Variable url : pystr.
Hypothesis random_range : forall n, (0 <= random n < 1)%Q.



End Fetcher.



(** ** Text that converts to a non-negative number *)

Lemma Forall_skip_while (P : N -> Prop) (p : N -> bool) (s : pystr) :
  Forall P s -> Forall P (skip_while p s).
Proof.
  induction 1 as [|c s Hc Hs IH]; simpl; [constructor |].
  destruct (p c); [exact IH | constructor; assumption].
Qed.

Lemma Forall_span_while (p : N -> bool) (s : pystr) :
  Forall (fun c => p c = true) (span_while p s).
Proof.
  induction s as [|c s IH]; simpl; [constructor |].
  destruct (p c) eqn:Hc; constructor; assumption.
Qed.

Lemma Forall_strip_by (P : N -> Prop) (p : N -> bool) (s : pystr) :
  Forall P s -> Forall P (strip_by p s).
Proof.
  intros Hs. unfold strip_by.
  apply Forall_rev, Forall_skip_while, Forall_rev, Forall_skip_while, Hs.
Qed.

Lemma Forall_remove_char (P : N -> Prop) (c : N) (s : pystr) :
  Forall P s -> Forall P (remove_char c s).
Proof.
  induction 1 as [|x s Hx Hs IH]; simpl; [constructor |].
  destruct (negb (x =? c)%N); [constructor; assumption | exact IH].
Qed.

Lemma Forall_filter_true (p : N -> bool) (s : pystr) :
  Forall (fun c => p c = true) (List.filter p s).
Proof.
  induction s as [|c s IH]; simpl; [constructor |].
  destruct (p c) eqn:Hc; [constructor; assumption | exact IH].
Qed.

Lemma skip_while_head (p : N -> bool) (s : pystr) (c : N) (r : pystr) :
  skip_while p s = c :: r -> p c = false.
Proof.
  induction s as [|x s IH]; simpl; [discriminate |].
  destruct (p x) eqn:Hx; [exact IH | intros [= <- _]; exact Hx].
Qed.

Lemma plain_intro (c : N) :
  (48 <= c <= 57)%N \/ (128 <= c)%N \/ c = 46%N \/ (9 <= c <= 13)%N
  \/ (28 <= c <= 32)%N ->
  plain c.
Proof.
  intros Hc. unfold plain, ascii_lower.
  destruct (N.leb_spec 65 c), (N.leb_spec c 90); cbn [andb]; lia.
Qed.

Section Conversion.
Context `{Unicode}.

Lemma is_decimal_range (c : N) :
  is_decimal c = true -> (48 <= c <= 57)%N \/ (128 <= c)%N.
Proof.
  unfold is_decimal, decimal_value, is_ascii.
  destruct (N.ltb_spec c 128); [| lia].
  destruct (N.leb_spec 48 c), (N.leb_spec c 57); cbn [andb];
    (discriminate || lia).
Qed.

Lemma is_decimal_plain (c : N) : is_decimal c = true -> plain c.
Proof. intros Hc. apply is_decimal_range in Hc. apply plain_intro. lia. Qed.

Lemma isdigit_plain (c : N) : isdigit c = true -> plain c.
Proof.
  unfold isdigit. intros [Hc | Hc]%orb_true_iff; [apply is_decimal_plain, Hc |].
  apply andb_true_iff in Hc as [Hc _]. unfold is_ascii in Hc.
  apply negb_true_iff, N.ltb_ge in Hc. apply plain_intro. lia.
Qed.

Lemma isspace_plain (c : N) : isspace c = true -> plain c.
Proof.
  unfold isspace, is_ascii. intros Hc. apply plain_intro.
  destruct (N.ltb_spec c 128); [| lia].
  apply orb_true_iff in Hc as [Hc | Hc];
    apply andb_true_iff in Hc as [H1 H2];
    apply N.leb_le in H1, H2; lia.
Qed.

Lemma is_token_plain (body : pystr) (tok : string) (c : ascii) :
  Forall plain body ->
  N_of_ascii c = 105%N \/ N_of_ascii c = 110%N ->
  is_token body (String c tok) = false.
Proof.
  intros Hbody Hc. unfold is_token. apply bool_decide_eq_false.
  destruct body as [|x body]; cbn [map py]; [discriminate |].
  intros [= Hx _]. apply Forall_cons_1 in Hbody as [(_ & _ & Hi & Hn) _].
  destruct Hc; congruence.
Qed.

Lemma sign_split_plain (s : pystr) :
  Forall plain s -> sign_split s = (false, s).
Proof.
  destruct s as [|c r]; [reflexivity |].
  intros [(Hp & Hm & _) _]%Forall_cons_1. cbn [sign_split].
  destruct (N.eqb_spec c 43); [congruence |].
  destruct (N.eqb_spec c 45); [congruence | reflexivity].
Qed.

Lemma parse_decimal_nonneg (s : pystr) (q : Q) :
  parse_decimal s = Some q -> (0 <= q)%Q.
Proof.
  unfold parse_decimal.
  destruct (span_digits s) as [ip r1].
  destruct (match r1 with
            | c :: r => if (c =? 46)%N then span_digits r else ([], r1)
            | [] => ([], [])
            end) as [fp r2].
  destruct (ip ++ fp) as [|d ds]; [discriminate |].
  destruct (parse_exponent r2) as [e|]; [| discriminate].
  intros [= <-]. apply Qmult_le_0_compat.
  - change 0%Q with (inject_Z 0). rewrite <- Zle_Qle. lia.
  - apply Qpower_0_le. discriminate.
Qed.

(** [float] of plain text returns a non-negative number or raises
    [ValueError]. *)
Lemma py_float_plain (s : pystr) :
  Forall plain s ->
  (exists q, py_float s = Ok (PNum q) /\ (0 <= q)%Q)
  \/ (exists msg, py_float s = Raise (Exn ValueError msg)).
Proof.
  intros Hs. unfold py_float.
  set (s1 := strip_by float_space s).
  assert (Hbody : Forall plain (remove_char 95 s1))
    by (apply Forall_remove_char, Forall_strip_by, Hs).
  destruct (underscores_ok false s1); cbn [negb]; [| right; eexists; reflexivity].
  rewrite (sign_split_plain _ Hbody).
  rewrite !(is_token_plain _ _ _ Hbody) by (cbn; tauto). cbn [orb].
  destruct (parse_decimal (remove_char 95 s1)) as [q|] eqn:Hq.
  - left. exists q. split; [reflexivity | eapply parse_decimal_nonneg, Hq].
  - right. eexists; reflexivity.
Qed.

End Conversion.

(** ** The extractor *)

Lemma bind_Ok {A B : Type} (m : result A) (k : A -> result B) (b : B) :
  m ≫= k = Ok b -> exists a, m = Ok a /\ k a = Ok b.
Proof.
  destruct m as [a|e]; cbn; [intros Hk; exists a; tauto | discriminate].
Qed.

Lemma record_ok_insert_str (k : string) (s : pystr) (item_data : pydict) :
  k <> "price" -> record_ok item_data ->
  record_ok (<[k := PStr s]> item_data).
Proof.
  intros Hk [Hfields (q & Hq & Hpos)]. split.
  - eapply Forall_impl; [exact Hfields |]. intros k' [s' Hk'].
    destruct (decide (k = k')) as [<- | Hne].
    + exists s. apply lookup_insert_eq.
    + exists s'. rewrite lookup_insert_ne by exact Hne. exact Hk'.
  - exists q. rewrite lookup_insert_ne by exact Hk. tauto.
Qed.

Lemma record_ok_insert_price (q : Q) (item_data : pydict) :
  (0 <= q)%Q -> record_ok item_data ->
  record_ok (<["price" := PNum q]> item_data).
Proof.
  intros Hq [Hfields _]. split.
  - unfold text_fields in *.
    repeat match goal with
           | H : Forall _ (_ :: _) |- _ => apply Forall_cons_1 in H as [? H]
           end.
    repeat constructor; rewrite lookup_insert_ne by discriminate; assumption.
  - exists q. rewrite lookup_insert_eq. tauto.
Qed.


Section Extractor.
Context `{Unicode}.
Variable item_element : Fragment.

(** The parts that set a text field. *)
Lemma set_id_inserts (d d' : pydict) :
  set_id item_element d = Ok d' -> exists s, d' = <["id" := PStr s]> d.
Proof.
  unfold set_id. intros (s1 & _ & Hk)%bind_Ok.
  apply bind_Ok in Hk as (s2 & _ & [= <-]). eexists; reflexivity.
Qed.

Lemma set_title_inserts (d d' : pydict) :
  set_title item_element d = Ok d' -> exists s, d' = <["title" := PStr s]> d.
Proof.
  unfold set_title. intros (el & _ & [= <-])%bind_Ok. eexists; reflexivity.
Qed.

Lemma set_url_inserts (d d' : pydict) :
  set_url item_element d = Ok d' -> exists s, d' = <["url" := PStr s]> d.
Proof.
  unfold set_url. intros (el & _ & [= <-])%bind_Ok. eexists; reflexivity.
Qed.

Lemma set_date_inserts (d d' : pydict) :
  set_date item_element d = Ok d' -> exists s, d' = <["date" := PStr s]> d.
Proof.
  unfold set_date. intros (el & _ & [= <-])%bind_Ok. eexists; reflexivity.
Qed.

Lemma set_location_inserts (d d' : pydict) :
  set_location item_element d = Ok d' ->
  exists s, d' = <["location" := PStr s]> d.
Proof.
  unfold set_location. intros (el & _ & Hk)%bind_Ok.
  destruct el as [el|]; [| injection Hk as <-; eexists; reflexivity].
  destruct (contains DELIVERY (lower (strip (text el))));
    [| injection Hk as <-; eexists; reflexivity].
  apply bind_Ok in Hk as (alt & _ & Hk).
  destruct alt as [alt|]; [| injection Hk as <-; eexists; reflexivity].
  destruct (negb (contains DELIVERY (lower (text alt))));
    injection Hk as <-; eexists; reflexivity.
Qed.

Lemma float_price_step (s : pystr) (d d' : pydict) (fallback : pydict) :
  Forall plain s ->
  price_step d fallback ->
  match py_float s with
  | Ok v => Ok (<["price" := v]> d)
  | Raise (Exn ValueError _) => Ok fallback
  | Raise e => Raise e
  end = Ok d' ->
  price_step d d'.
Proof.
  intros Hs Hfb.
  destruct (py_float_plain s Hs) as [(q & -> & Hq) | (msg & ->)].
  - intros [= <-]. right. exists q. tauto.
  - intros [= <-]. exact Hfb.
Qed.

Lemma search_digits_decimal (prefix suffix s g : pystr) :
  search_digits prefix suffix s = Some g ->
  Forall (fun c => is_decimal c = true) g.
Proof.
  induction s as [|c s IH]; cbn [search_digits]; unfold match_digits.
  - destruct (starts_with prefix []); [| discriminate].
    destruct (_ && _); [| discriminate].
    intros [= <-]. apply Forall_span_while.
  - destruct (starts_with prefix (c :: s)); [| exact IH].
    destruct (_ && _); [| exact IH].
    intros [= <-]. apply Forall_span_while.
Qed.

Lemma pattern_price_step (patterns : list (pystr * pystr)) (html_str : pystr)
  (d d' : pydict) :
  pattern_price patterns html_str d = Ok d' -> price_step d d'.
Proof.
  induction patterns as [|[prefix suffix] rest IH]; cbn [pattern_price].
  - intros [= <-]. left; reflexivity.
  - destruct (search_digits prefix suffix html_str) as [g|] eqn:Hg; [| exact IH].
    apply search_digits_decimal in Hg.
    assert (Hplain : Forall plain g)
      by (eapply Forall_impl; [exact Hg | apply is_decimal_plain]).
    destruct (py_float_plain g Hplain) as [(q & -> & Hq) | (msg & ->)].
    + intros [= <-]. right. exists q. tauto.
    + exact IH.
Qed.

Lemma set_price_step (d d' : pydict) :
  set_price item_element d = Ok d' -> price_step d d'.
Proof.
  unfold set_price. intros (el & _ & Hk)%bind_Ok.
  destruct el as [el|].
  - set (price := List.filter (fun x => isdigit x || (x =? 46)%N)
                              (strip (text el))) in *.
    destruct (is_empty price).
    + injection Hk as <-. right. exists 0%Q. split; [apply Qle_refl | reflexivity].
    + revert Hk. apply float_price_step.
      * unfold price. eapply Forall_impl; [apply Forall_filter_true |].
        intros c Hc. cbn beta in Hc.
        apply orb_true_iff in Hc as [Hc | Hc]; [apply isdigit_plain, Hc |].
        apply N.eqb_eq in Hc. apply plain_intro. lia.
      * right. exists 0%Q. split; [apply Qle_refl | reflexivity].
  - apply bind_Ok in Hk as (html_str & _ & Hk).
    eapply pattern_price_step, Hk.
Qed.

Lemma search_price_text_plain (s g : pystr) :
  search_price_text s = Some g -> Forall plain g.
Proof.
  unfold search_price_text.
  destruct (skip_while (fun c => negb (is_decimal c)) s) as [|c r] eqn:Hskip;
    [discriminate |].
  intros [= <-]. constructor.
  - apply skip_while_head in Hskip. apply negb_false_iff in Hskip.
    apply is_decimal_plain, Hskip.
  - apply Forall_rev, Forall_skip_while, Forall_rev.
    eapply Forall_impl; [apply Forall_span_while |].
    intros x [Hx | Hx]%orb_true_iff;
      [apply is_decimal_plain, Hx | apply isspace_plain, Hx].
Qed.

Lemma set_price_from_text_step (d d' : pydict) :
  set_price_from_text item_element d = Ok d' -> price_step d d'.
Proof.
  unfold set_price_from_text.
  destruct (price_is_zero d); [| intros [= <-]; left; reflexivity].
  intros (full_text & _ & Hk)%bind_Ok.
  destruct (search_price_text full_text) as [g|] eqn:Hg;
    [| injection Hk as <-; left; reflexivity].
  revert Hk. apply float_price_step.
  - apply Forall_remove_char. eapply search_price_text_plain, Hg.
  - left; reflexivity.
Qed.

Lemma price_step_ok (d d' : pydict) :
  price_step d d' -> record_ok d -> record_ok d'.
Proof.
  intros [-> | (q & Hq & ->)] Hd; [exact Hd |].
  apply record_ok_insert_price; assumption.
Qed.

Lemma parse_item_body_ok (d : pydict) :
  parse_item_body item_element = Ok d -> record_ok d.
Proof.
  unfold parse_item_body.
  intros (d1 & [s1 ->]%set_id_inserts & Hk)%bind_Ok.
  apply bind_Ok in Hk as (d2 & [s2 ->]%set_title_inserts & Hk).
  apply bind_Ok in Hk as (d3 & [s3 ->]%set_url_inserts & Hk).
  apply bind_Ok in Hk as (d4 & Hp1%set_price_step & Hk).
  apply bind_Ok in Hk as (d5 & Hp2%set_price_from_text_step & Hk).
  apply bind_Ok in Hk as (d6 & [s6 ->]%set_date_inserts & Hk).
  apply bind_Ok in Hk as (d7 & [s7 ->]%set_location_inserts & [= <-]).
  apply record_ok_insert_str; [discriminate |].
  apply record_ok_insert_str; [discriminate |].
  apply (price_step_ok _ _ Hp2), (price_step_ok _ _ Hp1).
  do 3 (apply record_ok_insert_str; [discriminate |]).
  split.
  - repeat constructor; eexists; reflexivity.
  - exists 0%Q. split; [reflexivity | apply Qle_refl].
Qed.

(** [_parse_item] returns a record, whatever the fragment does. *)
Lemma parse_item_returns :
  exists d, _parse_item item_element = Ok d /\ record_ok d.
Proof.
  unfold _parse_item.
  destruct (parse_item_body item_element) as [d|e] eqn:Hbody; cbn [try_except].
  - exists d. split; [reflexivity | apply parse_item_body_ok, Hbody].
  - eexists. split; [reflexivity |]. split.
    + repeat constructor; eexists; reflexivity.
    + exists 0%Q. split; [reflexivity | apply Qle_refl].
Qed.

End Extractor.

Section NoPrice.
Context `{Unicode}.
Variable item_element : Fragment.

Hypothesis no_price_element : forall sel,
  In sel price_selectors -> tag_select_one item_element sel = Ok None.
Hypothesis no_markup_price : forall html_str,
  tag_str item_element = Ok html_str ->
  forall prefix suffix,
    In (prefix, suffix) price_patterns ->
    search_digits prefix suffix html_str = None.
Hypothesis no_text_price : forall full_text,
  tag_get_text item_element = Ok full_text ->
  search_price_text full_text = None.

Lemma select_first_none (selectors : list selector) :
  (forall sel, In sel selectors -> tag_select_one item_element sel = Ok None) ->
  select_first item_element selectors = Ok None.
Proof.
  induction selectors as [|sel rest IH]; intros Hall; cbn [select_first];
    [reflexivity |].
  rewrite (Hall sel) by (left; reflexivity). cbn.
  apply IH. intros sel' Hin. apply Hall. right. exact Hin.
Qed.

Lemma pattern_price_none (patterns : list (pystr * pystr)) (html_str : pystr)
  (d : pydict) :
  (forall prefix suffix, In (prefix, suffix) patterns ->
                         search_digits prefix suffix html_str = None) ->
  pattern_price patterns html_str d = Ok d.
Proof.
  induction patterns as [|[prefix suffix] rest IH]; intros Hall;
    cbn [pattern_price]; [reflexivity |].
  rewrite (Hall prefix suffix) by (left; reflexivity).
  apply IH. intros p s Hin. apply Hall. right. exact Hin.
Qed.

Lemma set_price_unchanged (d d' : pydict) :
  set_price item_element d = Ok d' -> d' = d.
Proof.
  unfold set_price. rewrite (select_first_none _ no_price_element).
  cbn [mbind result_bind].
  intros (html_str & Hstr & Hk)%bind_Ok.
  rewrite pattern_price_none in Hk by (apply no_markup_price, Hstr).
  congruence.
Qed.

Lemma set_price_from_text_unchanged (d d' : pydict) :
  set_price_from_text item_element d = Ok d' -> d' = d.
Proof.
  unfold set_price_from_text.
  destruct (price_is_zero d); [| congruence].
  intros (full_text & Htext & Hk)%bind_Ok.
  rewrite (no_text_price _ Htext) in Hk. congruence.
Qed.

Lemma parse_item_body_no_price (d : pydict) :
  parse_item_body item_element = Ok d -> d !! "price" = Some (PNum 0).
Proof.
  unfold parse_item_body.
  intros (d1 & [s1 ->]%set_id_inserts & Hk)%bind_Ok.
  apply bind_Ok in Hk as (d2 & [s2 ->]%set_title_inserts & Hk).
  apply bind_Ok in Hk as (d3 & [s3 ->]%set_url_inserts & Hk).
  apply bind_Ok in Hk as (d4 & ->%set_price_unchanged & Hk).
  apply bind_Ok in Hk as (d5 & ->%set_price_from_text_unchanged & Hk).
  apply bind_Ok in Hk as (d6 & [s6 ->]%set_date_inserts & Hk).
  apply bind_Ok in Hk as (d7 & [s7 ->]%set_location_inserts & [= <-]).
  rewrite !lookup_insert_ne by discriminate. reflexivity.
Qed.

Lemma parse_item_no_price (d : pydict) :
  _parse_item item_element = Ok d -> d !! "price" = Some (PNum 0).
Proof.
  unfold _parse_item.
  destruct (parse_item_body item_element) as [d0|e] eqn:Hbody; cbn [try_except].
  - intros [= <-]. apply parse_item_body_no_price, Hbody.
  - intros [= <-]. reflexivity.
Qed.

End NoPrice.

(** C3.  [_parse_item] returns a record on every fragment and raises on
    none.  On a fragment where no price selector finds an element, no
    price pattern matches the markup and no price token is found in the
    text, the price of the record is 0. *)
Theorem parse_item_total_zero_price `{Unicode} (item_element : Fragment) :
  (exists item_data, _parse_item item_element = Ok item_data)
  /\ ((forall sel, In sel price_selectors ->
                   tag_select_one item_element sel = Ok None) ->
      (forall html_str,
          tag_str item_element = Ok html_str ->
          forall prefix suffix,
            In (prefix, suffix) price_patterns ->
            search_digits prefix suffix html_str = None) ->
      (forall full_text,
          tag_get_text item_element = Ok full_text ->
          search_price_text full_text = None) ->
      forall item_data,
        _parse_item item_element = Ok item_data ->
        item_data !! "price" = Some (PNum 0)).
Proof.
  split.
  - destruct (parse_item_returns item_element) as (d & Hd & _).
    exists d. exact Hd.
  - intros Hsel Hmarkup Htext d. now apply parse_item_no_price.
Qed.


(** ** The paginator *)

Section Paginator.
Context `{Unicode} `{Network}.
Variable self : parser.
Variable url : pystr.
Variable limit : Z.

(** The loop over the fragments of a page stops at [limit] records. *)
Lemma parse_items_spec (items : list Fragment) :
  forall (all_items : list pydict) (items_count : Z),
  exists all_items',
    parse_items limit items all_items items_count
    = Ok (all_items',
          Z.max items_count
                (Z.min limit (items_count + Z.of_nat (length items))))
    /\ (Z.of_nat (length all_items')
        = Z.of_nat (length all_items)
          + (Z.max items_count
                   (Z.min limit (items_count + Z.of_nat (length items)))
             - items_count))%Z.
Proof.
  induction items as [|item rest IH]; intros all_items items_count;
    cbn [parse_items].
  - exists all_items. split; [f_equal; f_equal; cbn; lia | cbn; lia].
  - destruct (Z.geb_spec items_count limit) as [Hge | Hlt].
    + exists all_items. split; [f_equal; f_equal; lia | lia].
    + destruct (parse_item_returns item) as (item_data & -> & _).
      cbn [mbind result_bind].
      destruct (IH (all_items ++ [item_data]) (items_count + 1)%Z)
        as (all_items' & -> & Hlen).
      exists all_items'. rewrite length_app in Hlen. cbn [length] in *.
      split; [f_equal; f_equal; lia | lia].
Qed.

(** A pass that reaches the bottom of the loop body has collected more
    records than before, and fewer than [limit]. *)
Lemma page_pass_next (all_items : list pydict) (page_num items_count : Z)
  (w w' : world) (all_items' : list pydict) (page_num' items_count' : Z) :
  page_pass self url limit all_items page_num items_count w
  = (Ok (Next all_items' page_num' items_count'), w') ->
  (items_count < limit)%Z ->
  (items_count < items_count' < limit)%Z
  /\ (Z.of_nat (length all_items')
      = Z.of_nat (length all_items) + (items_count' - items_count))%Z.
Proof.
  intros Hpass Hlt. unfold page_pass in Hpass.
  unfold mbind at 1, IO_bind at 1 in Hpass.
  destruct (_make_request self (page_url url page_num) w) as [[html|e] w1];
    [| discriminate].
  destruct html as [[|x html]|]; try discriminate.
  destruct (is_empty (select_items (x :: html))); [discriminate |].
  unfold mbind at 1, IO_bind at 1, lift at 1 in Hpass.
  destruct (parse_items_spec (select_items (x :: html)) all_items items_count)
    as (all' & Hitems & Hlen).
  rewrite Hitems in Hpass.
  set (count' := Z.max items_count
                   (Z.min limit (items_count
                                 + Z.of_nat (length (select_items (x :: html))))))
    in *.
  destruct (Z.geb_spec count' limit) as [Hge | Hlt']; [discriminate |].
  destruct (Z.ltb_spec (Z.of_nat (length (select_items (x :: html)))) 50)
    as [Hshort | Hfull]; [discriminate |].
  unfold mbind, IO_bind, uniform, sleep, mret, IO_ret in Hpass.
  injection Hpass as <- <- <- <-. lia.
Qed.

(** With [limit - items_count] passes of fuel the loop comes to its end. *)
Lemma page_loop_terminates (fuel : nat) :
  forall (all_items : list pydict) (page_num items_count : Z) (w : world),
  (Z.to_nat (limit - items_count) <= fuel)%nat ->
  exists out w',
    page_loop fuel self url limit all_items page_num items_count w = (out, w')
    /\ out <> Ok None.
Proof.
  induction fuel as [|fuel IH]; intros all_items page_num items_count w Hfuel.
  - cbn [page_loop].
    destruct (Z.ltb_spec items_count limit) as [Hlt | Hge]; [lia |].
    cbn [negb]. eexists _, _. split; [reflexivity | discriminate].
  - cbn [page_loop].
    destruct (Z.ltb_spec items_count limit) as [Hlt | Hge]; cbn [negb];
      [| eexists _, _; split; [reflexivity | discriminate]].
    unfold mbind at 1, IO_bind at 1.
    destruct (page_pass self url limit all_items page_num items_count w)
      as [[[a | a p c] | e] w1] eqn:Hpass.
    + eexists _, _; split; [reflexivity | discriminate].
    + apply page_pass_next in Hpass as [Hc _]; [| exact Hlt].
      apply IH. lia.
    + eexists _, _; split; [reflexivity | discriminate].
Qed.

(** More fuel does not change the outcome of a loop that came to its end. *)
Lemma page_loop_more_fuel (fuel : nat) :
  forall (fuel' : nat) (all_items : list pydict) (page_num items_count : Z)
         (w w' : world) (out : result (option (list pydict))),
  (fuel <= fuel')%nat ->
  page_loop fuel self url limit all_items page_num items_count w = (out, w') ->
  out <> Ok None ->
  page_loop fuel' self url limit all_items page_num items_count w = (out, w').
Proof.
  induction fuel as [|fuel IH];
    intros fuel' all_items page_num items_count w w' out Hle Hrun Hout.
  - cbn [page_loop] in Hrun.
    destruct fuel'; cbn [page_loop];
      destruct (negb (items_count <? limit)%Z); try exact Hrun;
      injection Hrun as <- <-; congruence.
  - destruct fuel' as [|fuel']; [lia |].
    cbn [page_loop] in *.
    destruct (negb (items_count <? limit)%Z); [exact Hrun |].
    unfold mbind at 1, IO_bind at 1 in Hrun.
    unfold mbind at 1, IO_bind at 1.
    destruct (page_pass self url limit all_items page_num items_count w)
      as [[[a | a p c] | e] w1]; try exact Hrun.
    apply IH; [lia | exact Hrun | exact Hout].
Qed.

End Paginator.

Lemma page_pass_break `{Unicode} `{Network} (self : parser) (url : pystr)
  (limit : Z) (all_items : list pydict) (page_num items_count : Z)
  (w w' : world) (all_items' : list pydict) :
  page_pass self url limit all_items page_num items_count w
  = (Ok (Break all_items'), w') ->
  (items_count < limit)%Z ->
  break_cause self url limit page_num items_count w.
Proof.
  intros Hpass Hlt. unfold page_pass in Hpass. unfold break_cause.
  unfold mbind at 1, IO_bind at 1 in Hpass.
  destruct (_make_request self (page_url url page_num) w) as [[html|e] w1];
    [| discriminate].
  destruct html as [[|x html]|]; [left; eauto | | left; eauto].
  right. exists (x :: html), w1. split; [reflexivity |].
  destruct (select_items (x :: html)) as [|item items] eqn:Hitems;
    [left; reflexivity | right].
  cbn [is_empty] in Hpass.
  unfold mbind at 1, IO_bind at 1, lift at 1 in Hpass.
  destruct (parse_items_spec limit (item :: items) all_items items_count)
    as (all' & Hrun & _).
  rewrite Hrun in Hpass.
  set (count' := Z.max items_count
                   (Z.min limit (items_count + Z.of_nat (length (item :: items)))))
    in *.
  destruct (Z.geb_spec count' limit) as [Hge | Hlt']; [left; lia |].
  destruct (Z.ltb_spec (Z.of_nat (length (item :: items))) 50)
    as [Hshort | Hfull]; [right; lia |].
  unfold mbind, IO_bind, uniform, sleep, mret, IO_ret in Hpass. discriminate.
Qed.

(** C7.  With at least [limit] passes of fuel, [parse_search_page] comes to
    its end on every URL, limit and environment, with the list of records
    or with the exception of a fetch, and more fuel does not change its
    outcome.  A pass through the body of the loop ends at a [break], for
    one of the four causes, or it leaves the count of records strictly
    larger, and still below [limit]. *)
Theorem parse_search_page_terminates `{Unicode} `{Network}
  (self : parser) (url : pystr) (limit : Z) (local_first : bool)
  (fuel : nat) (w : world) :
  (Z.to_nat limit <= fuel)%nat ->
  (exists out w',
      parse_search_page fuel self url limit local_first w = (out, w')
      /\ out <> Ok None
      /\ parse_search_page (Z.to_nat limit) self url limit local_first w
         = (out, w'))
  /\ (forall all_items page_num items_count w0 p w1,
         (items_count < limit)%Z ->
         page_pass self (search_url url local_first) limit
                   all_items page_num items_count w0 = (Ok p, w1) ->
         match p with
         | Break _ =>
             break_cause self (search_url url local_first) limit
                         page_num items_count w0
         | Next _ _ items_count' => (items_count < items_count' < limit)%Z
         end).
Proof.
  intros Hfuel. split.
  - unfold parse_search_page.
    destruct (page_loop_terminates self (search_url url local_first) limit
                (Z.to_nat limit) [] 1 0 w) as (out & w' & Hrun & Hout);
      [lia |].
    exists out, w'. split; [| split; [exact Hout | exact Hrun]].
    eapply page_loop_more_fuel; [exact Hfuel | exact Hrun | exact Hout].
  - intros all_items page_num items_count w0 p w1 Hlt Hpass.
    destruct p as [a | a pn c].
    + eapply page_pass_break; [exact Hpass | exact Hlt].
    + eapply page_pass_next; [exact Hpass | exact Hlt].
Qed.


Section FullPages.
Context `{Unicode} `{Network}.
Variable self : parser.
Variable url : pystr.
Variable limit : Z.

Hypothesis full_pages : forall u w0, exists body w1,
  _make_request self u w0 = (Ok (Some body), w1)
  /\ body <> []
  /\ (50 <= length (select_items body))%nat.


End FullPages.


(** ** The theorems at concrete inputs *)

Lemma find_outliers_example_witness :
  map lst_price example_data = example_prices
  /\ find_outliers example_data 2 = [].
Proof.
  split; [reflexivity |].
  apply (find_outliers_example example_data). reflexivity.
Defined.


Lemma parse_item_total_zero_price_witness :
  exists item_data,
    @_parse_item ascii_unicode bare_fragment = Ok item_data
    /\ item_data !! "price" = Some (PNum 0).
Proof.
  destruct (@parse_item_total_zero_price ascii_unicode bare_fragment)
    as [[item_data Hrun] Hzero].
  exists item_data. split; [exact Hrun |].
  apply Hzero; [| | | exact Hrun].
  - intros sel _. reflexivity.
  - intros html_str [= <-] prefix suffix Hin.
    repeat (destruct Hin as [[= <- <-] | Hin]; [reflexivity |]).
    destruct Hin.
  - intros full_text [= <-]. reflexivity.
Defined.

Lemma compare_with_previous_percent_guard_witness :
  exists comparison,
    compare_with_previous example_data [example_record 0] = Ok comparison
    /\ comparison !! "avg_price_change_percent" = Some (PNum 0).
Proof.
  destruct (compare_with_previous_percent_guard example_data [example_record 0])
    as (comparison & Hrun & Havg & _); [discriminate | discriminate |].
  exists comparison. split; [exact Hrun |].
  apply (Havg 0%Q); [reflexivity | discriminate].
Defined.


Lemma parse_search_page_terminates_witness :
  exists out w',
    @parse_search_page ascii_unicode (steady_source 1) 5 default_parser
      moscow_phones 3 true (World 0 0 [])
    = (out, w')
    /\ out <> Ok None.
Proof.
  destruct (@parse_search_page_terminates ascii_unicode (steady_source 1)
              default_parser moscow_phones 3 true 5 (World 0 0 []))
    as [(out & w' & Hrun & Hout & _) _]; [cbn; lia |].
  exists out, w'. split; [exact Hrun | exact Hout].
Defined.


(** * Further properties *)

(** ** The statistics over the positive prices *)







Lemma py_min_In (xs : list Q) (x : Q) : In (py_min x xs) (x :: xs).
Proof.
  unfold py_min. revert x. induction xs as [|y ys IH]; intros x; simpl;
    [tauto |].
  destruct (Qltb y x); [destruct (IH y) as [<- | Hin]
                       | destruct (IH x) as [<- | Hin]];
    simpl; tauto.
Qed.

Lemma py_max_In (xs : list Q) (x : Q) : In (py_max x xs) (x :: xs).
Proof.
  unfold py_max. revert x. induction xs as [|y ys IH]; intros x; simpl;
    [tauto |].
  destruct (Qltb x y); [destruct (IH y) as [<- | Hin]
                       | destruct (IH x) as [<- | Hin]];
    simpl; tauto.
Qed.

Lemma positive_prices_In (data : list listing) (p : Q) :
  In p (List.filter (fun p => Qltb 0 p) (map lst_price data)) <->
  exists r, In r data /\ lst_price r = p /\ (0 < p)%Q.
Proof.
  rewrite filter_In, in_map_iff, Qltb_lt. split.
  - intros [(r & <- & Hr) Hp]. eauto.
  - intros (r & Hr & <- & Hp). eauto.
Qed.

Lemma bounds_of_min_max (p : Q) (ps : list Q) (y : Q) :
  In y (p :: ps) -> (py_min p ps <= y <= py_max p ps)%Q.
Proof.
  intros Hy.
  destruct (py_min_le_acc ps p) as [Hmin Hmins].
  destruct (py_max_ge_acc ps p) as [Hmax Hmaxs].
  rewrite Forall_forall in Hmins, Hmaxs.
  destruct Hy as [<- | Hy]; [tauto |].
  apply list_elem_of_In in Hy. split; [apply Hmins, Hy | apply Hmaxs, Hy].
Qed.


(** X2.  When some record has a positive price, [min_price] and
    [max_price] are the prices of two records of the input, [min_price] is
    positive, and the price of every record with a positive price lies
    between them: the records without a price do not pull the minimum to
    zero. *)
Theorem get_price_statistics_min_max_attained (data : list listing) :
  Exists (fun r => (0 < lst_price r)%Q) data ->
  exists r_min r_max : listing,
    In r_min data /\ In r_max data
    /\ get_price_statistics data !! "min_price" = Some (PNum (lst_price r_min))
    /\ get_price_statistics data !! "max_price" = Some (PNum (lst_price r_max))
    /\ (0 < lst_price r_min)%Q
    /\ forall r, In r data -> (0 < lst_price r)%Q ->
                 (lst_price r_min <= lst_price r <= lst_price r_max)%Q.
Proof.
  intros Hex. pose proof (positive_prices_filter data Hex) as Hne.
  destruct data as [|r0 rest]; [inversion Hex |].
  unfold get_price_statistics.
  set (data := r0 :: rest) in *.
  destruct (List.filter (fun p => Qltb 0 p) (map lst_price data))
    as [|p ps] eqn:Hpos; [congruence |].
  destruct (proj1 (positive_prices_In data (py_min p ps)))
    as (r_min & Hin_min & Hmin & Hmin_pos);
    [rewrite Hpos; apply py_min_In |].
  destruct (proj1 (positive_prices_In data (py_max p ps)))
    as (r_max & Hin_max & Hmax & _);
    [rewrite Hpos; apply py_max_In |].
  exists r_min, r_max. rewrite Hmin, Hmax.
  split; [exact Hin_min |]. split; [exact Hin_max |].
  split; [reflexivity |]. split; [reflexivity |].
  split; [exact Hmin_pos |].
  intros r Hr Hpos_r. apply bounds_of_min_max. rewrite <- Hpos.
  apply positive_prices_In. eauto.
Qed.

Lemma no_positive_prices_filter (data : list listing) :
  Forall (fun r => (lst_price r <= 0)%Q) data ->
  List.filter (fun p => Qltb 0 p) (map lst_price data) = [].
Proof.
  induction 1 as [|r rest Hr _ IH]; simpl; [reflexivity |].
  apply Qltb_ge in Hr. rewrite Hr. exact IH.
Qed.

(** X3.  On a non-empty record list without a positive price, zero or
    negative, [count] and [zero_prices_count] are the length of the list
    and the five price statistics are 0. *)
Theorem get_price_statistics_no_positive_price (data : list listing) :
  data <> [] ->
  Forall (fun r => (lst_price r <= 0)%Q) data ->
  get_price_statistics data !! "count" = Some (PNum (of_nat (length data)))
  /\ get_price_statistics data !! "zero_prices_count"
     = Some (PNum (of_nat (length data)))
  /\ Forall (fun k => get_price_statistics data !! k = Some (PNum 0))
       ["avg_price"; "median_price"; "min_price"; "max_price"; "std_price"].
Proof.
  intros Hne Hall. destruct data as [|r rest]; [congruence |].
  unfold get_price_statistics. rewrite (no_positive_prices_filter _ Hall).
  split; [reflexivity |]. split; [reflexivity |]. repeat constructor.
Qed.

(** ** Sums of deviations *)


Lemma Qsum_cons (x : Q) (l : list Q) : Qsum (x :: l) = (x + Qsum l)%Q.
Proof. reflexivity. Qed.



Lemma Qsquare_nonneg (a : Q) : (0 <= a * a)%Q.
Proof. nra. Qed.

Lemma Qsum_sq_dev_nonneg (m : Q) (l : list Q) : (0 <= Qsum (sq_dev m l))%Q.
Proof.
  induction l as [|x l IH]; [apply Qle_refl |].
  cbn [sq_dev map]. rewrite Qsum_cons. fold (sq_dev m l).
  pose proof (Qsquare_nonneg (x - m)). lra.
Qed.







(** ** Outliers and the spread of the prices *)

Lemma find_outliers_unfold (data : list listing) (t : Q) :
  find_outliers data t
  = match pd_var (map lst_price (positive_records data)) with
    | Some var_price =>
        if Qeq_bool var_price 0 then []
        else List.filter
               (fun r => abs_z_gt (lst_price r)
                           (mean (map lst_price (positive_records data)))
                           var_price t)
               (positive_records data)
    | None => []
    end.
Proof.
  unfold find_outliers, positive_records.
  destruct data as [|r rest]; [reflexivity |].
  destruct (List.filter (fun r => Qltb 0 (lst_price r)) (r :: rest));
    reflexivity.
Qed.

Lemma pd_var_spec (xs : list Q) (v : Q) :
  pd_var xs = Some v ->
  (2 <= length xs)%nat
  /\ (1 < len xs)%Q
  /\ (v * (len xs - 1) == Qsum (sq_dev (mean xs) xs))%Q
  /\ (0 <= v)%Q.
Proof.
  destruct xs as [|x [|y l]]; try discriminate.
  set (xs := x :: y :: l). intros Hv.
  assert (Hv' : v = (Qsum (sq_dev (mean xs) xs) / (len xs - 1))%Q)
    by (injection Hv as Hv; symmetry; exact Hv).
  clear Hv.
  assert (Hn : (1 < len xs)%Q).
  { unfold xs. rewrite !len_cons. pose proof (len_nonneg l). lra. }
  pose proof (Qsum_sq_dev_nonneg (mean xs) xs) as Hs.
  set (total := Qsum (sq_dev (mean xs) xs)) in *.
  set (n := len xs) in *. clearbody total n. subst v.
  split; [simpl; lia |]. split; [exact Hn |]. split.
  - field. lra.
  - apply Qle_shift_div_l; lra.
Qed.

Lemma pd_var_None (xs : list Q) : pd_var xs = None <-> (length xs < 2)%nat.
Proof.
  destruct xs as [|x [|y l]]; simpl; split; intros; try lia; congruence.
Qed.


Lemma filter_sublist_impl {A : Type} (f g : A -> bool) (l : list A) :
  (forall a, f a = true -> g a = true) ->
  sublist (List.filter f l) (List.filter g l).
Proof.
  intros Himpl. induction l as [|a l IH]; simpl; [constructor |].
  destruct (f a) eqn:Hf.
  - rewrite (Himpl a Hf). apply sublist_skip, IH.
  - destruct (g a); [apply sublist_cons |]; exact IH.
Qed.






Lemma abs_z_gt_antitone (p m v t1 t2 : Q) :
  (0 <= v)%Q -> (t1 <= t2)%Q ->
  abs_z_gt p m v t2 = true -> abs_z_gt p m v t1 = true.
Proof.
  intros Hv Ht. unfold abs_z_gt.
  destruct (Qltb t1 0) eqn:H1; [reflexivity |]. apply Qltb_ge in H1.
  destruct (Qltb t2 0) eqn:H2; [apply Qltb_lt in H2; lra |].
  rewrite !Qltb_lt. intros Hlt.
  assert (Hsq : (t1 * t1 <= t2 * t2)%Q).
  { assert (E : (t2 * t2 == t1 * t1 + (t2 - t1) * (t2 + t1))%Q) by ring.
    rewrite E.
    assert (0 <= (t2 - t1) * (t2 + t1))%Q
      by (apply Qmult_le_0_compat; lra).
    lra. }
  assert (Hmul : (t1 * t1 * v <= t2 * t2 * v)%Q)
    by (apply Qmult_le_compat_r; assumption).
  lra.
Qed.

(** X5.  Raising the threshold never adds an outlier: the records returned
    for a threshold are among those returned for any smaller one. *)
Theorem find_outliers_antitone (data : list listing) (t1 t2 : Q) :
  (t1 <= t2)%Q ->
  sublist (find_outliers data t2) (find_outliers data t1).
Proof.
  intros Ht. rewrite !find_outliers_unfold.
  destruct (pd_var (map lst_price (positive_records data))) as [v|] eqn:Hvar;
    [| constructor].
  destruct (Qeq_bool v 0); [constructor |].
  apply filter_sublist_impl. intros r.
  apply abs_z_gt_antitone; [| exact Ht].
  apply (pd_var_spec _ _ Hvar).
Qed.

(** X6.  With fewer than two records of positive price there is no
    outlier, whatever the threshold, a negative one included. *)
Theorem find_outliers_single_price (data : list listing) (z_threshold : Q) :
  (length (positive_records data) < 2)%nat ->
  find_outliers data z_threshold = [].
Proof.
  intros Hlen. rewrite find_outliers_unfold.
  assert (Hnone : pd_var (map lst_price (positive_records data)) = None)
    by (apply pd_var_None; rewrite length_map; exact Hlen).
  rewrite Hnone. reflexivity.
Qed.





(** Six records are enough for one of them to be flagged. *)
Example find_outliers_six_records :
  find_outliers (example_record 100 :: example_data) 2 = [example_record 10000].
Proof. reflexivity. Qed.








(** ** The comparison of a record list with itself *)



(** ** The distribution of the locations *)

Lemma bump_get (loc k : pystr) (counts : list (pystr * nat)) :
  get_count k (bump loc counts)
  = if bool_decide (loc = k)
    then Some (S (default 0%nat (get_count loc counts)))
    else get_count k counts.
Proof.
  induction counts as [|[k' n] rest IH]; cbn [bump get_count].
  - destruct (bool_decide (loc = k)); reflexivity.
  - destruct (bool_decide (k' = loc)) eqn:Hk'; cbn [get_count].
    + apply bool_decide_eq_true in Hk'. subst k'.
      destruct (bool_decide (loc = k)); reflexivity.
    + rewrite IH. apply bool_decide_eq_false in Hk'.
      destruct (bool_decide (k' = k)) eqn:Hkk.
      * apply bool_decide_eq_true in Hkk. subst k'.
        rewrite bool_decide_eq_false_2 by congruence. reflexivity.
      * reflexivity.
Qed.

Lemma bump_keys (loc : pystr) (counts : list (pystr * nat)) :
  map fst (bump loc counts) = map fst counts
  \/ (~ In loc (map fst counts)
      /\ map fst (bump loc counts) = map fst counts ++ [loc]).
Proof.
  induction counts as [|[k n] rest IH]; cbn [bump].
  - right. split; [intros [] | reflexivity].
  - destruct (bool_decide (k = loc)) eqn:Hk; [left; reflexivity |].
    apply bool_decide_eq_false in Hk. cbn [map fst].
    destruct IH as [-> | [Hnot ->]]; [left; reflexivity |].
    right. split; [| reflexivity]. intros [Heq | Hin]; tauto.
Qed.

Lemma bump_NoDup (loc : pystr) (counts : list (pystr * nat)) :
  List.NoDup (map fst counts) -> List.NoDup (map fst (bump loc counts)).
Proof.
  intros Hnd. destruct (bump_keys loc counts) as [-> | [Hnot ->]];
    [exact Hnd |].
  apply NoDup_ListNoDup. apply NoDup_app. repeat split.
  - apply NoDup_ListNoDup, Hnd.
  - intros x Hx ->%list_elem_of_singleton. apply Hnot, list_elem_of_In, Hx.
  - apply NoDup_singleton.
Qed.

Lemma get_count_In (k : pystr) (n : nat) (counts : list (pystr * nat)) :
  get_count k counts = Some n -> In (k, n) counts.
Proof.
  induction counts as [|[k' m] rest IH]; cbn [get_count]; [discriminate |].
  destruct (bool_decide (k' = k)) eqn:Hk.
  - apply bool_decide_eq_true in Hk. intros [= <-]. left. congruence.
  - intros Hget. right. exact (IH Hget).
Qed.

Lemma In_get_count (k : pystr) (n : nat) (counts : list (pystr * nat)) :
  List.NoDup (map fst counts) -> In (k, n) counts -> get_count k counts = Some n.
Proof.
  induction counts as [|[k' m] rest IH]; cbn [map fst get_count];
    intros Hnd Hin; [destruct Hin |].
  apply List.NoDup_cons_iff in Hnd as [Hnot Hnd].
  destruct Hin as [[= -> ->] | Hin].
  - rewrite bool_decide_eq_true_2 by reflexivity. reflexivity.
  - destruct (bool_decide (k' = k)) eqn:Hk; [| exact (IH Hnd Hin)].
    apply bool_decide_eq_true in Hk. subst k'.
    exfalso. apply Hnot. apply (in_map fst) in Hin. exact Hin.
Qed.

Lemma occ_app (k : pystr) (l1 l2 : list pystr) :
  occ k (l1 ++ l2) = (occ k l1 + occ k l2)%nat.
Proof.
  unfold occ. destruct (is_empty k); [reflexivity |].
  rewrite List.filter_app, length_app. reflexivity.
Qed.

Lemma occ_single (k loc : pystr) :
  occ k [loc] = if bool_decide (loc = k) && negb (is_empty k) then 1%nat else 0%nat.
Proof.
  unfold occ. destruct (is_empty k); [rewrite andb_false_r; reflexivity |].
  cbn [List.filter]. destruct (bool_decide (loc = k)); reflexivity.
Qed.

Lemma counted_step (seen : list pystr) (counts : list (pystr * nat))
  (loc : pystr) :
  counted seen counts ->
  counted (seen ++ [loc]) (if is_empty loc then counts else bump loc counts).
Proof.
  intros [Hnd Hget]. split.
  - destruct (is_empty loc); [exact Hnd | apply bump_NoDup, Hnd].
  - intros k. rewrite occ_app, occ_single.
    destruct (is_empty loc) eqn:Hloc.
    + assert (Hz : bool_decide (loc = k) && negb (is_empty k) = false).
      { destruct (bool_decide (loc = k)) eqn:Hk; [| reflexivity].
        apply bool_decide_eq_true in Hk. subst k. rewrite Hloc. reflexivity. }
      rewrite Hz, Nat.add_0_r. apply Hget.
    + rewrite bump_get.
      destruct (bool_decide (loc = k)) eqn:Hk.
      * apply bool_decide_eq_true in Hk. subst k. rewrite Hloc. cbn [negb andb].
        rewrite Hget. destruct (occ loc seen =? 0)%nat eqn:Hzero.
        -- apply Nat.eqb_eq in Hzero. rewrite Hzero. reflexivity.
        -- cbn [default]. replace (occ loc seen + 1 =? 0)%nat with false
             by (symmetry; apply Nat.eqb_neq; lia).
           f_equal. unfold Datatypes.id. lia.
      * cbn [andb]. rewrite Nat.add_0_r. apply Hget.
Qed.

Lemma counted_fold (locations : list pystr) :
  forall (seen : list pystr) (counts : list (pystr * nat)),
  counted seen counts ->
  counted (seen ++ locations)
    (fold_left (fun counts loc => if is_empty loc then counts else bump loc counts)
               locations counts).
Proof.
  induction locations as [|loc rest IH]; intros seen counts Hc; cbn [fold_left].
  - rewrite app_nil_r. exact Hc.
  - replace (seen ++ loc :: rest) with ((seen ++ [loc]) ++ rest)
      by (rewrite <- app_assoc; reflexivity).
    apply IH, counted_step, Hc.
Qed.

Lemma count_locations_counted (locations : list pystr) :
  counted locations (count_locations locations).
Proof.
  apply (counted_fold locations [] []). split; [constructor |].
  intros k. unfold occ. destruct (is_empty k); reflexivity.
Qed.

(** The sort is a permutation that puts the larger counts first. *)
Lemma insert_desc_perm (x : pystr * nat) (l : list (pystr * nat)) :
  Permutation (insert_desc x l) (x :: l).
Proof.
  induction l as [|y l IH]; cbn [insert_desc]; [reflexivity |].
  destruct (snd x <? snd y)%nat; [| reflexivity].
  rewrite IH. apply perm_swap.
Qed.

Lemma sorted_desc_perm (l : list (pystr * nat)) : Permutation (sorted_desc l) l.
Proof.
  induction l as [|x l IH]; [reflexivity |].
  unfold sorted_desc in *. cbn [fold_right].
  rewrite insert_desc_perm. constructor. exact IH.
Qed.

Lemma insert_desc_sorted (x : pystr * nat) (l : list (pystr * nat)) :
  StronglySorted count_ge l -> StronglySorted count_ge (insert_desc x l).
Proof.
  induction 1 as [|y l Hs IH Hy]; cbn [insert_desc].
  - repeat constructor.
  - destruct (Nat.ltb_spec (snd x) (snd y)) as [Hlt | Hge].
    + constructor; [exact IH |].
      eapply Permutation_Forall; [symmetry; apply insert_desc_perm |].
      constructor; [unfold count_ge; lia | exact Hy].
    + constructor; [constructor; assumption |].
      constructor; [exact Hge |].
      eapply Forall_impl; [exact Hy |]. unfold count_ge. intros z Hz. lia.
Qed.

Lemma sorted_desc_sorted (l : list (pystr * nat)) :
  StronglySorted count_ge (sorted_desc l).
Proof.
  induction l as [|x l IH]; [constructor |].
  unfold sorted_desc in *. cbn [fold_right]. apply insert_desc_sorted, IH.
Qed.

Lemma StronglySorted_app_inv (l1 l2 : list (pystr * nat)) :
  StronglySorted count_ge (l1 ++ l2) ->
  StronglySorted count_ge l1
  /\ forall a b, In a l1 -> In b l2 -> count_ge a b.
Proof.
  induction l1 as [|x l1 IH]; cbn [app]; intros Hs.
  - split; [constructor | intros a b []].
  - apply StronglySorted_inv in Hs as [Hs Hx].
    destruct (IH Hs) as [Hs1 Hcross].
    apply Forall_app in Hx as [Hx1 Hx2].
    split; [constructor; assumption |].
    intros a b [<- | Ha] Hb; [| exact (Hcross a b Ha Hb)].
    rewrite Forall_forall in Hx2. apply Hx2, list_elem_of_In, Hb.
Qed.

Lemma slice_to_prefix {A : Type} (limit : Z) (l : list A) :
  exists rest, l = slice_to limit l ++ rest.
Proof.
  unfold slice_to. destruct (0 <=? limit)%Z;
    eexists; symmetry; apply take_drop.
Qed.

Section Locations.
Context `{Unicode}.
Variable data : list listing.

Lemma get_location_distribution_unfold (limit : Z) :
  get_location_distribution data limit
  = slice_to limit (sorted_desc (count_locations (locations_of data))).
Proof.
  unfold get_location_distribution, locations_of.
  destruct data; [| reflexivity].
  unfold slice_to. cbn. destruct (0 <=? limit)%Z; rewrite take_nil; reflexivity.
Qed.

Lemma distribution_entry (limit : Z) (loc : pystr) (n : nat) :
  In (loc, n) (get_location_distribution data limit) ->
  In (loc, n) (count_locations (locations_of data)).
Proof.
  rewrite get_location_distribution_unfold. intros Hin.
  destruct (slice_to_prefix limit
              (sorted_desc (count_locations (locations_of data)))) as [rest Hrest].
  eapply Permutation_in; [apply sorted_desc_perm |].
  rewrite Hrest. apply in_or_app. left. exact Hin.
Qed.

Lemma distribution_keys_NoDup (limit : Z) :
  List.NoDup (map fst (get_location_distribution data limit)).
Proof.
  rewrite get_location_distribution_unfold.
  destruct (slice_to_prefix limit
              (sorted_desc (count_locations (locations_of data)))) as [rest Hrest].
  destruct (count_locations_counted (locations_of data)) as [Hnd _].
  assert (Hfull : List.NoDup
            (map fst (sorted_desc (count_locations (locations_of data))))).
  { eapply Permutation_NoDup; [| exact Hnd].
    apply Permutation_map. symmetry. apply sorted_desc_perm. }
  rewrite Hrest, map_app in Hfull.
  apply NoDup_ListNoDup, NoDup_app in Hfull as [Hfull _].
  apply NoDup_ListNoDup, Hfull.
Qed.

(** X11.  The locations of the distribution are distinct and not empty,
    and each comes with the number of records that have this location
    once stripped, a number that is at least 1. *)
Theorem get_location_distribution_counts (limit : Z) :
  List.NoDup (map fst (get_location_distribution data limit))
  /\ Forall (fun entry =>
               fst entry <> []
               /\ (1 <= snd entry)%nat
               /\ snd entry = occ (fst entry) (locations_of data))
            (get_location_distribution data limit).
Proof.
  split; [apply distribution_keys_NoDup |].
  apply Forall_forall. intros [loc n] Hin. cbn [fst snd].
  apply list_elem_of_In, distribution_entry in Hin.
  destruct (count_locations_counted (locations_of data)) as [Hnd Hget].
  apply (In_get_count _ _ _ Hnd) in Hin. rewrite Hget in Hin.
  destruct (Nat.eqb_spec (occ loc (locations_of data)) 0) as [Hz | Hnz];
    [discriminate |].
  injection Hin as <-. split; [| split; [lia | reflexivity]].
  intros ->. apply Hnz. reflexivity.
Qed.

Lemma count_locations_length (locations : list pystr) :
  (length (count_locations locations) <= length locations)%nat.
Proof.
  unfold count_locations.
  assert (Hgen : forall counts,
    (length (fold_left
               (fun counts loc => if is_empty loc then counts else bump loc counts)
               locations counts)
     <= length counts + length locations)%nat).
  { induction locations as [|loc rest IH]; intros counts; cbn [fold_left length];
      [lia |].
    etransitivity; [apply IH |].
    destruct (is_empty loc); [lia |].
    assert (length (bump loc counts) <= S (length counts))%nat; [| lia].
    clear. induction counts as [|[k n] l IHl]; cbn [bump length]; [lia |].
    destruct (bool_decide (k = loc)); cbn [length]; lia. }
  apply (Hgen []).
Qed.

Lemma distribution_length (limit : Z) :
  (length (get_location_distribution data limit) <= length data)%nat
  /\ ((0 <= limit)%Z ->
      (length (get_location_distribution data limit) <= Z.to_nat limit)%nat).
Proof.
  rewrite get_location_distribution_unfold.
  pose proof (count_locations_length (locations_of data)) as Hlen.
  unfold locations_of in Hlen at 2. rewrite length_map in Hlen.
  rewrite <- (Permutation_length (sorted_desc_perm _)) in Hlen.
  unfold slice_to. destruct (Z.leb_spec 0 limit) as [Hpos | Hneg];
    rewrite length_take; split; lia.
Qed.

(** X12.  The distribution is ordered by decreasing count, holds at most
    [limit] locations when [limit] is not negative, and never more than
    there are records. *)
Theorem get_location_distribution_sorted (limit : Z) :
  StronglySorted count_ge (get_location_distribution data limit)
  /\ (length (get_location_distribution data limit) <= length data)%nat
  /\ ((0 <= limit)%Z ->
      (length (get_location_distribution data limit) <= Z.to_nat limit)%nat).
Proof.
  split; [| apply distribution_length].
  rewrite get_location_distribution_unfold.
  destruct (slice_to_prefix limit
              (sorted_desc (count_locations (locations_of data)))) as [rest Hrest].
  pose proof (sorted_desc_sorted (count_locations (locations_of data))) as Hs.
  rewrite Hrest in Hs. apply StronglySorted_app_inv in Hs. apply Hs.
Qed.

(** X13.  The cut keeps the most frequent locations: a location that
    occurs and is left out of the distribution occurs at most as often as
    every location kept. *)
Theorem get_location_distribution_keeps_most_frequent
  (limit : Z) (loc : pystr) :
  (0 < occ loc (locations_of data))%nat ->
  ~ In loc (map fst (get_location_distribution data limit)) ->
  Forall (fun entry => (occ loc (locations_of data) <= snd entry)%nat)
         (get_location_distribution data limit).
Proof.
  intros Hocc Hout.
  destruct (count_locations_counted (locations_of data)) as [Hnd Hget].
  specialize (Hget loc).
  replace (occ loc (locations_of data) =? 0)%nat with false in Hget
    by (symmetry; apply Nat.eqb_neq; lia).
  apply get_count_In in Hget.
  rewrite get_location_distribution_unfold in *.
  destruct (slice_to_prefix limit
              (sorted_desc (count_locations (locations_of data)))) as [rest Hrest].
  pose proof (sorted_desc_sorted (count_locations (locations_of data))) as Hs.
  rewrite Hrest in Hs. apply StronglySorted_app_inv in Hs as [_ Hcross].
  assert (Hin : In (loc, occ loc (locations_of data)) rest).
  { apply (Permutation_in _ (Permutation_sym (sorted_desc_perm _))) in Hget.
    rewrite Hrest in Hget. apply in_app_or in Hget as [Hkept | Hrest']; [| exact Hrest'].
    exfalso. apply Hout. apply (in_map fst) in Hkept. exact Hkept. }
  apply Forall_forall. intros entry Hentry.
  apply list_elem_of_In in Hentry.
  exact (Hcross entry _ Hentry Hin).
Qed.

End Locations.

Lemma list_sum_step (n : nat) (l : list nat) :
  list_sum (n :: l) = (n + list_sum l)%nat.
Proof. reflexivity. Qed.

Lemma bump_sum (loc : pystr) (counts : list (pystr * nat)) :
  list_sum (map snd (bump loc counts)) = S (list_sum (map snd counts)).
Proof.
  induction counts as [|[k n] rest IH]; cbn [bump]; [reflexivity |].
  destruct (bool_decide (k = loc)); cbn [map snd];
    rewrite !list_sum_step, ?IH; lia.
Qed.

Lemma count_locations_sum (locations : list pystr) :
  list_sum (map snd (count_locations locations))
  = length (List.filter (fun l => negb (is_empty l)) locations).
Proof.
  unfold count_locations.
  assert (Hgen : forall counts,
    list_sum (map snd
      (fold_left (fun counts loc => if is_empty loc then counts else bump loc counts)
                 locations counts))
    = (list_sum (map snd counts)
       + length (List.filter (fun l => negb (is_empty l)) locations))%nat).
  { induction locations as [|loc rest IH]; intros counts;
      cbn [fold_left List.filter length]; [lia |].
    rewrite IH. destruct (is_empty loc); cbn [negb length];
      [lia | rewrite bump_sum; lia]. }
  apply (Hgen []).
Qed.

Lemma list_sum_perm (l1 l2 : list nat) :
  Permutation l1 l2 -> list_sum l1 = list_sum l2.
Proof.
  induction 1 as [| x l l' _ IH | x y l | l l' l'' _ IH1 _ IH2];
    rewrite ?list_sum_step; [reflexivity | lia | lia | congruence].
Qed.

Section LocationsComplete.
Context `{Unicode}.
Variable data : list listing.

Lemma distribution_full (limit : Z) :
  (Z.of_nat (length data) <= limit)%Z ->
  get_location_distribution data limit
  = sorted_desc (count_locations (locations_of data)).
Proof.
  intros Hlimit. rewrite get_location_distribution_unfold.
  pose proof (count_locations_length (locations_of data)) as Hlen.
  unfold locations_of in Hlen at 2. rewrite length_map in Hlen.
  rewrite <- (Permutation_length (sorted_desc_perm _)) in Hlen.
  unfold slice_to. destruct (Z.leb_spec 0 limit); [| lia].
  apply take_ge. lia.
Qed.

(** X14.  With a limit that is at least the number of records nothing is
    cut: every location that occurs is in the distribution with its number
    of occurrences, and the counts add up to the number of records whose
    stripped location is not empty. *)
Theorem get_location_distribution_complete (limit : Z) :
  (Z.of_nat (length data) <= limit)%Z ->
  (forall loc, (0 < occ loc (locations_of data))%nat ->
               In (loc, occ loc (locations_of data))
                  (get_location_distribution data limit))
  /\ list_sum (map snd (get_location_distribution data limit))
     = length (List.filter (fun l => negb (is_empty l)) (locations_of data)).
Proof.
  intros Hlimit. rewrite (distribution_full limit Hlimit). split.
  - intros loc Hocc.
    destruct (count_locations_counted (locations_of data)) as [_ Hget].
    specialize (Hget loc).
    replace (occ loc (locations_of data) =? 0)%nat with false in Hget
      by (symmetry; apply Nat.eqb_neq; lia).
    apply get_count_In in Hget.
    eapply Permutation_in; [symmetry; apply sorted_desc_perm | exact Hget].
  - rewrite <- count_locations_sum.
    apply list_sum_perm, Permutation_map, sorted_desc_perm.
Qed.

(** X15.  A negative limit cuts from the end: with the limit [- k] the
    distribution is the complete one without its last [k] locations. *)
Theorem get_location_distribution_negative_limit (k : nat) :
  (0 < k)%nat ->
  get_location_distribution data (- Z.of_nat k)
  = take (length (get_location_distribution data (Z.of_nat (length data))) - k)
         (get_location_distribution data (Z.of_nat (length data))).
Proof.
  intros Hk. rewrite (distribution_full (Z.of_nat (length data))) by lia.
  rewrite get_location_distribution_unfold. unfold slice_to.
  destruct (Z.leb_spec 0 (- Z.of_nat k)); [lia |].
  rewrite Z.opp_involutive, Nat2Z.id. reflexivity.
Qed.

End LocationsComplete.

(** ** Locations of equal count *)

Lemma bump_keys_exact (loc : pystr) (counts : list (pystr * nat)) :
  map fst (bump loc counts)
  = if bool_decide (loc ∈ map fst counts) then map fst counts
    else map fst counts ++ [loc].
Proof.
  induction counts as [|[k n] rest IH]; cbn [bump map fst].
  - rewrite bool_decide_eq_false_2 by (apply not_elem_of_nil). reflexivity.
  - destruct (bool_decide (k = loc)) eqn:Hk.
    + apply bool_decide_eq_true in Hk. subst k.
      rewrite bool_decide_eq_true_2 by (apply list_elem_of_here). reflexivity.
    + apply bool_decide_eq_false in Hk. cbn [map fst]. rewrite IH.
      destruct (bool_decide (loc ∈ map fst rest)) eqn:Hin.
      * apply bool_decide_eq_true in Hin.
        rewrite bool_decide_eq_true_2 by (apply list_elem_of_further, Hin).
        reflexivity.
      * apply bool_decide_eq_false in Hin.
        rewrite bool_decide_eq_false_2; [reflexivity |].
        intros [Heq | Hin']%elem_of_cons; congruence.
Qed.

Lemma count_locations_keys (locations : list pystr) :
  map fst (count_locations locations) = first_seen locations.
Proof.
  unfold count_locations, first_seen.
  assert (Hgen : forall counts,
    map fst (fold_left
               (fun counts loc => if is_empty loc then counts else bump loc counts)
               locations counts)
    = fold_left (fun seen loc =>
                   if is_empty loc || bool_decide (loc ∈ seen) then seen
                   else seen ++ [loc])
                locations (map fst counts)).
  { induction locations as [|loc rest IH]; intros counts; cbn [fold_left];
      [reflexivity |].
    rewrite IH. f_equal.
    destruct (is_empty loc); cbn [orb]; [reflexivity |].
    apply bump_keys_exact. }
  apply (Hgen []).
Qed.

Lemma insert_desc_same_count (n : nat) (x : pystr * nat)
  (l : list (pystr * nat)) :
  List.filter (fun e => (snd e =? n)%nat) (insert_desc x l)
  = List.filter (fun e => (snd e =? n)%nat) (x :: l).
Proof.
  induction l as [|y l IH]; cbn [insert_desc]; [reflexivity |].
  destruct (Nat.ltb_spec (snd x) (snd y)) as [Hlt | Hge]; [| reflexivity].
  cbn [List.filter] in *. rewrite IH.
  destruct (Nat.eqb_spec (snd x) n) as [Hx | Hx];
    destruct (Nat.eqb_spec (snd y) n) as [Hy | Hy]; try reflexivity.
  lia.
Qed.

Lemma sorted_desc_same_count (n : nat) (l : list (pystr * nat)) :
  List.filter (fun e => (snd e =? n)%nat) (sorted_desc l)
  = List.filter (fun e => (snd e =? n)%nat) l.
Proof.
  induction l as [|x l IH]; [reflexivity |].
  unfold sorted_desc in *. cbn [fold_right].
  rewrite insert_desc_same_count. cbn [List.filter]. rewrite IH. reflexivity.
Qed.

Lemma filter_counts_keys (seen : list pystr) (n : nat)
  (counts : list (pystr * nat)) :
  counted seen counts ->
  map fst (List.filter (fun e => (snd e =? n)%nat) counts)
  = List.filter (fun loc => (occ loc seen =? n)%nat) (map fst counts).
Proof.
  intros [Hnd Hget].
  assert (Hall : forall k m, In (k, m) counts -> m = occ k seen).
  { intros k m Hin. apply (In_get_count _ _ _ Hnd) in Hin.
    rewrite Hget in Hin. destruct (occ k seen =? 0)%nat; congruence. }
  clear Hnd Hget. induction counts as [|[k m] rest IH]; [reflexivity |].
  cbn [List.filter map fst snd].
  rewrite (Hall k m) by (left; reflexivity).
  destruct (occ k seen =? n)%nat; cbn [map fst]; rewrite IH; try reflexivity;
    intros k' m' Hin; apply Hall; right; exact Hin.
Qed.

(** X16.  Locations of equal count keep the order in which they are first
    met in the data: for every count [n], the locations of the
    distribution with this count are, in their order, the first of the
    locations with [n] occurrences taken in the order of first occurrence;
    they are all of them when nothing is cut. *)
Theorem get_location_distribution_stable `{Unicode}
  (data : list listing) (limit : Z) (n : nat) :
  map fst (List.filter (fun e => (snd e =? n)%nat)
                       (get_location_distribution data limit))
  `prefix_of`
  List.filter (fun loc => (occ loc (locations_of data) =? n)%nat)
              (first_seen (locations_of data))
  /\ ((Z.of_nat (length data) <= limit)%Z ->
      map fst (List.filter (fun e => (snd e =? n)%nat)
                           (get_location_distribution data limit))
      = List.filter (fun loc => (occ loc (locations_of data) =? n)%nat)
                    (first_seen (locations_of data))).
Proof.
  assert (Hfull :
    map fst (List.filter (fun e => (snd e =? n)%nat)
               (sorted_desc (count_locations (locations_of data))))
    = List.filter (fun loc => (occ loc (locations_of data) =? n)%nat)
                  (first_seen (locations_of data))).
  { rewrite sorted_desc_same_count.
    rewrite (filter_counts_keys (locations_of data))
      by apply count_locations_counted.
    rewrite count_locations_keys. reflexivity. }
  split.
  - rewrite <- Hfull, get_location_distribution_unfold.
    destruct (slice_to_prefix limit
                (sorted_desc (count_locations (locations_of data))))
      as [rest Hrest].
    rewrite Hrest at 2. rewrite List.filter_app, map_app.
    apply prefix_app_r. reflexivity.
  - intros Hlimit. rewrite (distribution_full data limit Hlimit). exact Hfull.
Qed.

(** ** Every outcome of a fetch *)

Section FetchOutcome.
Context `{Network}.
Variable self : parser.
Variable url : pystr.

Lemma make_request_loop_outcome (n : nat) : forall (attempt : Z) (w : world),
  (attempt + Z.of_nat n = max_retries self)%Z ->
  exists r w' added,
    make_request_loop self url attempt n w = (r, w')
    /\ (requests w <= requests w' <= requests w + n)%nat
    /\ ((0 < n)%nat -> (requests w < requests w')%nat)
    /\ slept w' = slept w ++ added
    /\ length added = Nat.pred (requests w' - requests w)
    /\ (r = Ok None -> requests w' = (requests w + n)%nat)
    /\ (forall i, (requests w <= i)%nat -> (i + 1 < requests w')%nat ->
                  exists msg, session_get i url = RequestException msg)
    /\ last_attempt url w w' r.
Proof.
  induction n as [|n IH]; intros attempt w Hsum.
  - exists (Ok None), w, []. cbn [make_request_loop last_attempt].
    rewrite app_nil_r, Nat.add_0_r, Nat.sub_diag.
    repeat split; try lia; try reflexivity; intros; lia.
  - cbn [make_request_loop]. unfold mbind at 1, IO_bind at 1.
    unfold http_get at 1.
    set (w0 := World (S (requests w)) (draws w) (slept w)).
    destruct (session_get (requests w) url) as [body | msg | e] eqn:Hget.
    + exists (Ok (Some body)), w0, []. cbn [requests slept w0 last_attempt].
      rewrite app_nil_r.
      replace (S (requests w) - 1)%nat with (requests w) by lia.
      replace (S (requests w) - requests w)%nat with 1%nat by lia.
      repeat split; try lia; try reflexivity; try exact Hget;
        try discriminate; intros; lia.
    + destruct n as [|n].
      * assert (Hlast : (attempt <? max_retries self - 1)%Z = false)
          by (apply Z.ltb_ge; lia).
        rewrite Hlast. exists (Ok None), w0, [].
        cbn [requests slept w0 last_attempt make_request_loop mbind IO_bind
             mret IO_ret].
        rewrite app_nil_r.
        replace (S (requests w) - requests w)%nat with 1%nat by lia.
        repeat split; try lia; try reflexivity; try (intros; lia).
        intros i Hi. replace i with (requests w) by lia. eauto.
      * assert (Hmore : (attempt <? max_retries self - 1)%Z = true)
          by (apply Z.ltb_lt; lia).
        rewrite Hmore.
        set (t := (inject_Z (delay self * (attempt + 1))
                   + (0 + (1 - 0) * random (draws w)))%Q).
        set (w1 := World (S (requests w)) (S (draws w)) (slept w ++ [t])).
        destruct (IH (attempt + 1)%Z w1)
          as (r & w' & added & Hrun & Hreq & Hprog & Hsl & Hlen & Hnone
              & Hearlier & Hlast); [lia |].
        cbn [requests slept w1] in *.
        specialize (Hprog ltac:(lia)).
        exists r, w', (t :: added). split.
        { unfold mbind, IO_bind, uniform, sleep. cbn [requests draws slept].
          fold t. fold w1. exact Hrun. }
        split; [lia |]. split; [lia |].
        split; [rewrite Hsl, <- app_assoc; reflexivity |].
        split; [cbn [length]; lia |].
        split; [intros Hr; rewrite (Hnone Hr); lia |].
        split.
        { intros i Hi Hi'. destruct (Nat.eq_dec i (requests w)) as [-> | Hne];
            [eauto | apply Hearlier; lia]. }
        destruct r as [[body |] | e]; cbn [last_attempt requests w1] in *;
          try exact Hlast.
        intros i Hi. destruct (Nat.eq_dec i (requests w)) as [-> | Hne];
          [eauto | apply Hlast; lia].
    + exists (Raise e), w0, []. cbn [requests slept w0 last_attempt lift].
      rewrite app_nil_r.
      replace (S (requests w) - 1)%nat with (requests w) by lia.
      replace (S (requests w) - requests w)%nat with 1%nat by lia.
      repeat split; try lia; try reflexivity; try exact Hget;
        try discriminate; intros; lia.
Qed.

End FetchOutcome.


(** ** What a search returns and what it costs *)

Lemma make_request_requests `{Network} (self : parser) (url : pystr)
  (w w' : world) (r : result (option pystr)) :
  _make_request self url w = (r, w') ->
  (requests w <= requests w' <= requests w + Z.to_nat (max_retries self))%nat.
Proof.
  unfold _make_request. intros Hrun.
  destruct (Z.to_nat (max_retries self)) as [|n] eqn:Hn.
  - cbn in Hrun. injection Hrun as _ <-. lia.
  - destruct (make_request_loop_outcome self url (S n) 0 w)
      as (r0 & w0 & added & Hrun0 & Hreq & _); [lia |].
    rewrite Hrun in Hrun0. injection Hrun0 as _ <-. exact Hreq.
Qed.

Section Collector.
Context `{Unicode} `{Network}.
Variable self : parser.
Variable url : pystr.
Variable limit : Z.

(** The loop over the fragments of a page appends the records of the
    first fragments, in the order of the page. *)
Lemma parse_items_extends (items : list Fragment) :
  forall (all_items : list pydict) (items_count : Z),
  exists new,
    parse_items limit items all_items items_count
    = Ok (all_items ++ new, (items_count + Z.of_nat (length new))%Z)
    /\ Forall2 (fun item item_data => _parse_item item = Ok item_data)
               (take (length new) items) new
    /\ Forall record_ok new
    /\ Z.of_nat (length new)
       = Z.max 0 (Z.min (limit - items_count) (Z.of_nat (length items))).
Proof.
  induction items as [|item rest IH]; intros all_items items_count;
    cbn [parse_items].
  - exists []. rewrite app_nil_r, Z.add_0_r. cbn.
    repeat split; try constructor. lia.
  - destruct (Z.geb_spec items_count limit) as [Hge | Hlt].
    + exists []. rewrite app_nil_r, Z.add_0_r. cbn [length take].
      repeat split; try constructor. lia.
    + destruct (parse_item_returns item) as (item_data & Hitem & Hok).
      rewrite Hitem. cbn [mbind result_bind].
      destruct (IH (all_items ++ [item_data]) (items_count + 1)%Z)
        as (new & -> & Hnew & Hall & Hlen).
      exists (item_data :: new). rewrite <- app_assoc. cbn [app length take].
      split; [do 2 f_equal; lia |].
      split; [constructor; assumption |].
      split; [constructor; assumption |]. cbn [length] in *. lia.
Qed.

(** One pass through the body of the loop: what it makes of the records
    collected so far and of the count of requests. *)
Lemma page_pass_outcome (all_items : list pydict) (page_num items_count : Z)
  (w w' : world) (r : result pass) :
  page_pass self url limit all_items page_num items_count w = (r, w') ->
  (items_count < limit)%Z ->
  (requests w <= requests w'
   <= requests w + Z.to_nat (max_retries self))%nat
  /\ match r with
     | Ok (Break all_items') =>
         exists new, all_items' = all_items ++ new
                     /\ Forall record_ok new
                     /\ (items_count + Z.of_nat (length new) <= limit)%Z
     | Ok (Next all_items' page_num' items_count') =>
         exists new, all_items' = all_items ++ new
                     /\ Forall record_ok new
                     /\ items_count' = (items_count + Z.of_nat (length new))%Z
                     /\ (items_count + 50 <= items_count' < limit)%Z
                     /\ page_num' = (page_num + 1)%Z
     | Raise _ => True
     end.
Proof.
  intros Hpass Hlt. unfold page_pass in Hpass.
  unfold mbind at 1, IO_bind at 1 in Hpass.
  destruct (_make_request self (page_url url page_num) w) as [[html|e] w1]
    eqn:Hget.
  2: { injection Hpass as <- <-.
       split; [eapply make_request_requests, Hget | exact I]. }
  apply make_request_requests in Hget.
  assert (Hstop : forall w2, (Ok (Break all_items), w1) = (r, w2) ->
            (requests w <= requests w2
             <= requests w + Z.to_nat (max_retries self))%nat
            /\ match r with
               | Ok (Break all_items') =>
                   exists new, all_items' = all_items ++ new
                               /\ Forall record_ok new
                               /\ (items_count + Z.of_nat (length new)
                                   <= limit)%Z
               | Ok (Next all_items' page_num' items_count') =>
                   exists new, all_items' = all_items ++ new
                     /\ Forall record_ok new
                     /\ items_count' = (items_count + Z.of_nat (length new))%Z
                     /\ (items_count + 50 <= items_count' < limit)%Z
                     /\ page_num' = (page_num + 1)%Z
               | Raise _ => True
               end).
  { intros w2 [= <- <-]. split; [exact Hget |].
    exists []. rewrite app_nil_r. cbn. split; [reflexivity |].
    split; [constructor | lia]. }
  destruct html as [[|x html]|]; [apply Hstop, Hpass | | apply Hstop, Hpass].
  destruct (is_empty (select_items (x :: html))); [apply Hstop, Hpass |].
  clear Hstop.
  unfold mbind at 1, IO_bind at 1, lift at 1 in Hpass.
  destruct (parse_items_extends (select_items (x :: html)) all_items items_count)
    as (new & Hitems & _ & Hall & Hlen).
  rewrite Hitems in Hpass.
  destruct (Z.geb_spec (items_count + Z.of_nat (length new)) limit)
    as [Hge | Hlt'].
  { injection Hpass as <- <-. split; [exact Hget |].
    exists new. split; [reflexivity |]. split; [exact Hall | lia]. }
  destruct (Z.ltb_spec (Z.of_nat (length (select_items (x :: html)))) 50)
    as [Hshort | Hfull].
  { injection Hpass as <- <-. split; [exact Hget |].
    exists new. split; [reflexivity |]. split; [exact Hall | lia]. }
  unfold mbind, IO_bind, uniform, sleep, mret, IO_ret in Hpass.
  injection Hpass as <- <-. cbn [requests]. split; [exact Hget |].
  exists new. split; [reflexivity |]. split; [exact Hall |].
  split; [reflexivity |]. split; [lia | reflexivity].
Qed.


Lemma page_loop_requests (fuel : nat) :
  forall (all_items : list pydict) (page_num items_count : Z) (w w' : world)
         (r : result (option (list pydict))),
  page_loop fuel self url limit all_items page_num items_count w = (r, w') ->
  (requests w <= requests w'
   <= requests w + Z.to_nat (max_retries self)
                   * Z.to_nat ((limit - items_count + 49) / 50))%nat.
Proof.
  induction fuel as [|fuel IH];
    intros all_items page_num items_count w w' r Hrun;
    cbn [page_loop] in Hrun;
    destruct (Z.ltb_spec items_count limit) as [Hlt | Hge]; cbn [negb] in Hrun;
    try (injection Hrun as <- <-; lia).
  unfold mbind at 1, IO_bind at 1 in Hrun.
  assert (Hpages : (1 <= (limit - items_count + 49) / 50)%Z).
  { apply Z.div_le_lower_bound; lia. }
  destruct (page_pass self url limit all_items page_num items_count w)
    as [[[a | a p c] | e] w1] eqn:Hpass;
    apply page_pass_outcome in Hpass as [Hreq Hout]; try exact Hlt.
  - injection Hrun as <- <-. nia.
  - destruct Hout as (new & _ & _ & _ & Hc & _).
    apply IH in Hrun.
    assert (Hstep : ((limit - c + 49) / 50 + 1
                     <= (limit - items_count + 49) / 50)%Z).
    { rewrite <- Z.div_add by lia. apply Z.div_le_mono; lia. }
    assert (0 <= (limit - c + 49) / 50)%Z by (apply Z.div_pos; lia).
    nia.
  - injection Hrun as <- <-. nia.
Qed.

End Collector.


(** X19.  A search never sends more than [max_retries] requests for each
    of the [ceil(limit / 50)] pages it can need, however it ends: with
    the records, with an exception, or out of fuel. *)
Theorem parse_search_page_request_budget `{Unicode} `{Network}
  (self : parser) (url : pystr) (limit : Z) (local_first : bool)
  (fuel : nat) (w w' : world) (r : result (option (list pydict))) :
  parse_search_page fuel self url limit local_first w = (r, w') ->
  (requests w <= requests w'
   <= requests w + Z.to_nat (max_retries self)
                   * Z.to_nat ((limit + 49) / 50))%nat.
Proof.
  intros Hrun. unfold parse_search_page in Hrun.
  apply page_loop_requests in Hrun. rewrite Z.sub_0_r in Hrun. exact Hrun.
Qed.

(** ** Where the error record and the price come from *)

Section Raising.
Context `{Unicode}.
Variable item_element : Fragment.

Lemma py_float_raises (s : pystr) (e : exn) :
  py_float s = Raise e -> exists msg, e = Exn ValueError msg.
Proof.
  unfold py_float.
  destruct (negb (underscores_ok false (strip_by float_space s)));
    [intros [= <-]; eauto |].
  destruct (sign_split (remove_char 95 (strip_by float_space s))) as [neg body].
  destruct (is_token body "inf" || is_token body "infinity"); [discriminate |].
  destruct (is_token body "nan"); [discriminate |].
  destruct (parse_decimal body); [discriminate | intros [= <-]; eauto].
Qed.

Lemma bind_Raise {A B : Type} (m : result A) (k : A -> result B) (e : exn) :
  m ≫= k = Raise e ->
  m = Raise e \/ exists a, m = Ok a /\ k a = Raise e.
Proof. destruct m as [a|e']; cbn; [eauto | intros [= ->]; eauto]. Qed.

Lemma get_raises (key : string) (default : pystr) (e : exn) :
  get item_element key default = Raise e -> raised_by item_element e.
Proof.
  unfold get. intros [Hr | (v & _ & [=])]%bind_Raise. left. eauto.
Qed.

Lemma select_first_raises (selectors : list selector) (e : exn) :
  select_first item_element selectors = Raise e -> raised_by item_element e.
Proof.
  induction selectors as [|sel rest IH]; cbn [select_first]; [discriminate |].
  intros [Hr | (el & _ & Hk)]%bind_Raise; [right; left; eauto |].
  destruct el; [discriminate | exact (IH Hk)].
Qed.

Lemma pattern_price_raises (patterns : list (pystr * pystr)) (html_str : pystr)
  (d : pydict) (e : exn) :
  pattern_price patterns html_str d = Raise e -> False.
Proof.
  induction patterns as [|[prefix suffix] rest IH]; cbn [pattern_price];
    [discriminate |].
  destruct (search_digits prefix suffix html_str) as [g|]; [| exact IH].
  destruct (py_float g) as [v|e'] eqn:Hg; [discriminate |].
  apply py_float_raises in Hg as [msg ->]. exact IH.
Qed.

Lemma parse_item_body_raises (e : exn) :
  parse_item_body item_element = Raise e -> raised_by item_element e.
Proof.
  unfold parse_item_body.
  intros [Hr | (d1 & _ & Hk)]%bind_Raise.
  { unfold set_id in Hr.
    apply bind_Raise in Hr as [Hr | (s1 & _ & Hr)]; [eapply get_raises, Hr |].
    apply bind_Raise in Hr as [Hr | (s2 & _ & [=])].
    destruct (is_empty s1); [| discriminate].
    apply bind_Raise in Hr as [Hr | (s3 & _ & [=])]. eapply get_raises, Hr. }
  apply bind_Raise in Hk as [Hr | (d2 & _ & Hk)].
  { unfold set_title in Hr.
    apply bind_Raise in Hr as [Hr | (el & _ & [=])].
    eapply select_first_raises, Hr. }
  apply bind_Raise in Hk as [Hr | (d3 & _ & Hk)].
  { unfold set_url in Hr.
    apply bind_Raise in Hr as [Hr | (el & _ & [=])].
    eapply select_first_raises, Hr. }
  apply bind_Raise in Hk as [Hr | (d4 & _ & Hk)].
  { unfold set_price in Hr.
    apply bind_Raise in Hr as [Hr | (el & _ & Hr)];
      [eapply select_first_raises, Hr |].
    destruct el as [el|].
    - destruct (is_empty _); [discriminate |].
      destruct (py_float _) as [v|e'] eqn:Hv; [discriminate |].
      apply py_float_raises in Hv as [msg ->]. discriminate.
    - apply bind_Raise in Hr as [Hr | (html_str & _ & Hr)];
        [right; right; left; exact Hr |].
      destruct (pattern_price_raises _ _ _ _ Hr). }
  apply bind_Raise in Hk as [Hr | (d5 & _ & Hk)].
  { unfold set_price_from_text in Hr.
    destruct (price_is_zero d4); [| discriminate].
    apply bind_Raise in Hr as [Hr | (full_text & _ & Hr)];
      [right; right; right; exact Hr |].
    destruct (search_price_text full_text) as [g|]; [| discriminate].
    destruct (py_float _) as [v|e'] eqn:Hv; [discriminate |].
    apply py_float_raises in Hv as [msg ->]. discriminate. }
  apply bind_Raise in Hk as [Hr | (d6 & _ & Hk)].
  { unfold set_date in Hr.
    apply bind_Raise in Hr as [Hr | (el & _ & [=])]. right; left; eauto. }
  apply bind_Raise in Hk as [Hr | (d7 & _ & [=])].
  unfold set_location in Hr.
  apply bind_Raise in Hr as [Hr | (el & _ & Hr)];
    [eapply select_first_raises, Hr |].
  destruct el as [el|]; [| discriminate].
  destruct (contains DELIVERY (lower (strip (text el)))); [| discriminate].
  apply bind_Raise in Hr as [Hr | (alt & _ & Hr)]; [right; left; eauto |].
  destruct alt as [alt|]; [| discriminate].
  destruct (negb _); discriminate.
Qed.

Lemma parse_item_body_no_error (d : pydict) :
  parse_item_body item_element = Ok d -> d !! "error" = None.
Proof.
  unfold parse_item_body.
  intros (d1 & [s1 ->]%set_id_inserts & Hk)%bind_Ok.
  apply bind_Ok in Hk as (d2 & [s2 ->]%set_title_inserts & Hk).
  apply bind_Ok in Hk as (d3 & [s3 ->]%set_url_inserts & Hk).
  apply bind_Ok in Hk as (d4 & Hp1%set_price_step & Hk).
  apply bind_Ok in Hk as (d5 & Hp2%set_price_from_text_step & Hk).
  apply bind_Ok in Hk as (d6 & [s6 ->]%set_date_inserts & Hk).
  apply bind_Ok in Hk as (d7 & [s7 ->]%set_location_inserts & [= <-]).
  rewrite !lookup_insert_ne by discriminate.
  assert (Hstep : forall a b, price_step a b -> a !! "error" = None ->
                              b !! "error" = None).
  { intros a b [-> | (q & _ & ->)] Ha; [exact Ha |].
    rewrite lookup_insert_ne by discriminate. exact Ha. }
  apply (Hstep _ _ Hp2), (Hstep _ _ Hp1).
  rewrite !lookup_insert_ne by discriminate. reflexivity.
Qed.

End Raising.

(** X20.  The record of [_parse_item] carries the [error] field only when
    a method of the fragment raised: no conversion of a price text makes
    one.  The field then holds the text of that exception, and whatever
    was extracted before it is dropped: the texts are empty and the
    price is 0.  Without the field the record is the one the body of the
    [try] built. *)
Theorem parse_item_error_origin `{Unicode} (item_element : Fragment) :
  exists item_data,
    _parse_item item_element = Ok item_data
    /\ match item_data !! "error" with
       | None => parse_item_body item_element = Ok item_data
       | Some v =>
           exists e, raised_by item_element e
                     /\ v = PStr (exn_str e)
                     /\ Forall (fun k => item_data !! k = Some (PStr []))
                               text_fields
                     /\ item_data !! "price" = Some (PNum 0)
       end.
Proof.
  unfold _parse_item.
  destruct (parse_item_body item_element) as [d|e] eqn:Hbody; cbn [try_except].
  - exists d. split; [reflexivity |].
    rewrite (parse_item_body_no_error _ _ Hbody). reflexivity.
  - eexists. split; [reflexivity |]. cbn.
    exists e. split; [eapply parse_item_body_raises, Hbody |].
    split; [reflexivity |]. split; [repeat constructor | reflexivity].
Qed.

Section AsciiDigits.
Context `{Unicode}.








Variable item_element : Fragment.

Hypothesis attr_returns : forall key, exists v, tag_attr item_element key = Ok v.
Hypothesis select_returns :
  forall sel, exists el, tag_select_one item_element sel = Ok el.








End AsciiDigits.


(** ** The normalisation of [main] *)








(** ** The summary *)




Section SummaryLines.
Context `{Unicode} `{Formatting}.
Variable data : list listing.
Hypothesis some_data : data <> [].






End SummaryLines.


(** ** A short first page *)

(** X25.  A first page that is fetched and holds fewer than 50 listings
    ends the search: [parse_search_page] returns the records of its first
    [limit] fragments, in the order of the page, one [_parse_item] each,
    and neither sleeps nor requests a second page. *)
Theorem parse_search_page_short_page `{Unicode} `{Network}
  (self : parser) (url : pystr) (limit : Z) (local_first : bool)
  (fuel : nat) (w w1 : world) (html : pystr) :
  (0 < limit)%Z ->
  (0 < fuel)%nat ->
  _make_request self (page_url (search_url url local_first) 1) w
  = (Ok (Some html), w1) ->
  html <> [] ->
  select_items html <> [] ->
  (length (select_items html) < 50)%nat ->
  exists items,
    parse_search_page fuel self url limit local_first w = (Ok (Some items), w1)
    /\ Forall2 (fun item item_data => _parse_item item = Ok item_data)
               (take (Z.to_nat limit) (select_items html)) items.
Proof.
  intros Hlimit Hfuel Hget Hhtml Hitems Hshort. unfold parse_search_page.
  destruct fuel as [|fuel]; [lia |]. cbn [page_loop].
  destruct (Z.ltb_spec 0 limit) as [_ | Hle]; [| lia]. cbn [negb].
  unfold mbind at 1, IO_bind at 1. unfold page_pass.
  unfold mbind at 1, IO_bind at 1. rewrite Hget.
  destruct html as [|x html]; [congruence |].
  destruct (select_items (x :: html)) as [|item items] eqn:Hsel; [congruence |].
  cbn [is_empty]. unfold mbind at 1, IO_bind at 1, lift at 1.
  destruct (parse_items_extends limit (item :: items) [] 0)
    as (new & Hrun & Hnew & _ & Hlen).
  rewrite Hrun. cbn [app].
  assert (Htake : take (length new) (item :: items)
                  = take (Z.to_nat limit) (item :: items)).
  { replace (length new)
      with (Nat.min (Z.to_nat limit) (length (item :: items))) by lia.
    rewrite <- take_take, (take_ge (item :: items)) by lia. reflexivity. }
  rewrite Htake in Hnew.
  assert (Hbreak : (Z.of_nat (length (item :: items)) <? 50)%Z = true)
    by (apply Z.ltb_lt; lia).
  rewrite Hbreak.
  destruct (0 + Z.of_nat (length new) >=? limit)%Z;
    exists new; (split; [reflexivity | exact Hnew]).
Qed.

(** ** The price found in the text *)

Section TextPrice.
Context `{Unicode}.
Variable item_element : Fragment.

Hypothesis attr_returns : forall key, exists v, tag_attr item_element key = Ok v.
Hypothesis select_returns :
  forall sel, exists el, tag_select_one item_element sel = Ok el.
Hypothesis no_price_element : forall sel,
  In sel price_selectors -> tag_select_one item_element sel = Ok None.



End TextPrice.


(** ** The further theorems at concrete inputs *)


Lemma get_price_statistics_min_max_attained_witness :
  exists r_min r_max : listing,
    In r_min example_data /\ In r_max example_data
    /\ get_price_statistics example_data !! "min_price"
       = Some (PNum (lst_price r_min))
    /\ get_price_statistics example_data !! "max_price"
       = Some (PNum (lst_price r_max)).
Proof.
  destruct (get_price_statistics_min_max_attained example_data)
    as (r_min & r_max & Hmin & Hmax & Hlo & Hhi & _).
  - constructor. reflexivity.
  - exists r_min, r_max. tauto.
Defined.

Lemma get_price_statistics_no_positive_price_witness :
  get_price_statistics [example_record 0; example_record 0] !! "count"
  = Some (PNum (of_nat 2)).
Proof.
  destruct (get_price_statistics_no_positive_price
              [example_record 0; example_record 0]) as [Hcount _].
  - discriminate.
  - repeat constructor; discriminate.
  - exact Hcount.
Defined.

Lemma find_outliers_antitone_witness :
  sublist (find_outliers example_data 3) (find_outliers example_data 2).
Proof. apply (find_outliers_antitone example_data 2 3). discriminate. Defined.

Lemma find_outliers_single_price_witness :
  find_outliers [example_record 100; example_record 0] 2 = [].
Proof.
  apply (find_outliers_single_price [example_record 100; example_record 0] 2).
  vm_compute. lia.
Defined.





Lemma get_location_distribution_sorted_witness :
  (length (@get_location_distribution ascii_unicode example_locations 2)
   <= Z.to_nat 2)%nat.
Proof.
  destruct (@get_location_distribution_sorted ascii_unicode example_locations 2)
    as (_ & _ & Hlen).
  apply Hlen. lia.
Defined.

Lemma get_location_distribution_keeps_most_frequent_witness :
  Forall (fun entry =>
            (occ (py "Perm") (@locations_of ascii_unicode example_locations)
             <= snd entry)%nat)
         (@get_location_distribution ascii_unicode example_locations 1).
Proof.
  apply (@get_location_distribution_keeps_most_frequent ascii_unicode
           example_locations 1 (py "Perm")).
  - vm_compute. lia.
  - vm_compute. intros [E | []]. discriminate E.
Defined.

Lemma get_location_distribution_complete_witness :
  list_sum (map snd (@get_location_distribution ascii_unicode
                       example_locations 5))
  = length (List.filter (fun l => negb (is_empty l))
                        (@locations_of ascii_unicode example_locations)).
Proof.
  apply (@get_location_distribution_complete ascii_unicode example_locations 5).
  cbn. lia.
Defined.

Lemma get_location_distribution_negative_limit_witness :
  @get_location_distribution ascii_unicode example_locations (- Z.of_nat 1)
  = take (length (@get_location_distribution ascii_unicode example_locations
                    (Z.of_nat (length example_locations))) - 1)
         (@get_location_distribution ascii_unicode example_locations
            (Z.of_nat (length example_locations))).
Proof.
  apply (@get_location_distribution_negative_limit ascii_unicode
           example_locations 1).
  lia.
Defined.

Lemma get_location_distribution_stable_witness :
  map fst (List.filter (fun e => (snd e =? 1)%nat)
             (@get_location_distribution ascii_unicode example_locations 5))
  = List.filter
      (fun loc =>
         (occ loc (@locations_of ascii_unicode example_locations) =? 1)%nat)
      (first_seen (@locations_of ascii_unicode example_locations)).
Proof.
  apply (@get_location_distribution_stable ascii_unicode example_locations 5 1).
  cbn. lia.
Defined.



Lemma parse_search_page_request_budget_witness :
  exists r w',
    @parse_search_page ascii_unicode failing_source 2 default_parser
      moscow_phones 2 true (World 0 0 [])
    = (r, w')
    /\ (requests w' <= 0 + Z.to_nat 3 * Z.to_nat ((2 + 49) / 50))%nat.
Proof.
  eexists _, _. split; [vm_compute; reflexivity |].
  edestruct (@parse_search_page_request_budget ascii_unicode failing_source
               default_parser moscow_phones 2 true 2 (World 0 0 []))
    as [_ Hle]; [vm_compute; reflexivity |].
  exact Hle.
Defined.




Lemma parse_search_page_short_page_witness :
  exists items,
    @parse_search_page ascii_unicode (steady_source 1) 1 default_parser
      moscow_phones 2 true (World 0 0 [])
    = (Ok (Some items), World 1 0 [])
    /\ Forall2 (fun item item_data =>
                  @_parse_item ascii_unicode item = Ok item_data)
               (take (Z.to_nat 2) (@select_items (steady_source 1) (py "<html>")))
               items.
Proof.
  apply (@parse_search_page_short_page ascii_unicode (steady_source 1)
           default_parser moscow_phones 2 true 1 (World 0 0 []) (World 1 0 [])
           (py "<html>")).
  - reflexivity.
  - lia.
  - reflexivity.
  - discriminate.
  - discriminate.
  - cbn. lia.
Defined.

